(** * Timeline-Box: a shallow embedding of [src/visual.ts]

    The visual converts a tabular data view into timeline records
    ([CONVERTER]), keeps the first 100 of them, windows them by year
    around the current date, resolves the axis domain, and lays the
    records out in alternating lanes above and below the time axis
    ([renderLine], [renderArrow], [renderBox]).

    Conventions of the embedding.
    - A JavaScript exception is an explicit [Throw] result.
    - The numbers that decide control flow here are integers (array
      indices, years, millisecond time values), [NaN] and the two
      infinities: they are the type [number].
    - A [Date] object is its time value: milliseconds since the epoch, or
      [InvalidDate] (time value [NaN]).  Calendar fields follow the
      ECMAScript algorithms (Day, DayFromYear, YearFromTime, ...), with
      the local time zone taken as a constant offset [LocalTZA].
    - Pixel coordinates are exact rationals. *)

From Stdlib Require Import ZArith List String Ascii Bool Lia QArith Qabs Qround Lqa
  DecimalString.
Import ListNotations.

Local Open Scope Z_scope.

(** ** Exceptions *)

Module JS.

Inductive error : Type :=
| TypeError.

Inductive result (A : Type) : Type :=
| Ok (a : A)
| Throw (e : error).

Arguments Ok {A} a.
Arguments Throw {A} e.

Definition bind {A B : Type} (r : result A) (k : A -> result B) : result B :=
  match r with
  | Ok a => k a
  | Throw e => Throw e
  end.

Definition is_ok {A : Type} (r : result A) : bool :=
  match r with Ok _ => true | Throw _ => false end.

(** [xs.map(f)] where [f] may throw: elements are visited left to right and
    the first exception aborts the whole call. *)
Fixpoint mapM {A B : Type} (f : A -> result B) (xs : list A) : result (list B) :=
  match xs with
  | [] => Ok []
  | x :: rest =>
      bind (f x) (fun y => bind (mapM f rest) (fun ys => Ok (y :: ys)))
  end.

(** JavaScript numbers, as far as this program inspects them. *)
Inductive number : Type :=
| Fin (z : Z)
| PosInfinity
| NegInfinity
| NaN.

Definition num_add (a b : number) : number :=
  match a, b with
  | NaN, _ | _, NaN => NaN
  | PosInfinity, NegInfinity | NegInfinity, PosInfinity => NaN
  | PosInfinity, _ | _, PosInfinity => PosInfinity
  | NegInfinity, _ | _, NegInfinity => NegInfinity
  | Fin x, Fin y => Fin (x + y)
  end.

Definition num_neg (a : number) : number :=
  match a with
  | Fin x => Fin (- x)
  | PosInfinity => NegInfinity
  | NegInfinity => PosInfinity
  | NaN => NaN
  end.

Definition num_sub (a b : number) : number := num_add a (num_neg b).

(** [a <= b] on numbers: false as soon as one side is [NaN]. *)
Definition num_le (a b : number) : bool :=
  match a, b with
  | NaN, _ | _, NaN => false
  | NegInfinity, _ => true
  | _, PosInfinity => true
  | Fin x, Fin y => x <=? y
  | _, _ => false
  end.

(** [a >= b] *)
Definition num_ge (a b : number) : bool := num_le b a.

(** [Math.min(a, b)] and [Math.max(a, b)]. *)
Definition min2 (a b : number) : number :=
  match a, b with
  | NaN, _ | _, NaN => NaN
  | _, _ => if num_le a b then a else b
  end.

Definition max2 (a b : number) : number :=
  match a, b with
  | NaN, _ | _, NaN => NaN
  | _, _ => if num_le a b then b else a
  end.

(** [Math.min.apply(null, xs)]: [+Infinity] on the empty array. *)
Definition Math_min (xs : list number) : number := fold_left min2 xs PosInfinity.

(** [Math.max.apply(null, xs)]: [-Infinity] on the empty array. *)
Definition Math_max (xs : list number) : number := fold_left max2 xs NegInfinity.

End JS.

Import JS.

(** ** ECMAScript time values and calendar algorithms *)

Module ESDate.

Definition msPerDay : Z := 86400000.

Definition Day (t : Z) : Z := t / msPerDay.

Definition TimeWithinDay (t : Z) : Z := t mod msPerDay.

Definition DaysInYear (y : Z) : Z :=
  if negb (y mod 4 =? 0) then 365
  else if negb (y mod 100 =? 0) then 366
  else if negb (y mod 400 =? 0) then 365
  else 366.

Definition DayFromYear (y : Z) : Z :=
  365 * (y - 1970) + (y - 1969) / 4 - (y - 1901) / 100 + (y - 1601) / 400.

Definition TimeFromYear (y : Z) : Z := msPerDay * DayFromYear y.

(** The largest [y] with [TimeFromYear y <= t].  A 400-year cycle has
    146097 days, so [1970 + 400 * Day t / 146097] is off by at most one
    year; the two comparisons settle which. *)
Definition YearFromTime (t : Z) : Z :=
  let d := Day t in
  let y := 1970 + (400 * d) / 146097 in
  if d <? DayFromYear y then y - 1
  else if DayFromYear (y + 1) <=? d then y + 1
  else y.

Definition InLeapYear (t : Z) : bool := DaysInYear (YearFromTime t) =? 366.

Definition DayWithinYear (t : Z) : Z := Day t - DayFromYear (YearFromTime t).

(** Month number, 0 = January. *)
Definition MonthFromTime (t : Z) : Z :=
  let d := DayWithinYear t in
  let l := if InLeapYear t then 1 else 0 in
  if d <? 31 then 0
  else if d <? 59 + l then 1
  else if d <? 90 + l then 2
  else if d <? 120 + l then 3
  else if d <? 151 + l then 4
  else if d <? 181 + l then 5
  else if d <? 212 + l then 6
  else if d <? 243 + l then 7
  else if d <? 273 + l then 8
  else if d <? 304 + l then 9
  else if d <? 334 + l then 10
  else 11.

(** Day of the month, 1-based. *)
Definition DateFromTime (t : Z) : Z :=
  let d := DayWithinYear t in
  let l := if InLeapYear t then 1 else 0 in
  match MonthFromTime t with
  | 0 => d + 1
  | 1 => d - 30
  | 2 => d - 58 - l
  | 3 => d - 89 - l
  | 4 => d - 119 - l
  | 5 => d - 150 - l
  | 6 => d - 180 - l
  | 7 => d - 211 - l
  | 8 => d - 242 - l
  | 9 => d - 272 - l
  | 10 => d - 303 - l
  | _ => d - 333 - l
  end.

(** Days from 1 January to the first day of month [m] (0..11). *)
Definition DaysBeforeMonth (m : Z) (leap : bool) : Z :=
  let l := if leap then 1 else 0 in
  match m with
  | 0 => 0
  | 1 => 31
  | 2 => 59 + l
  | 3 => 90 + l
  | 4 => 120 + l
  | 5 => 151 + l
  | 6 => 181 + l
  | 7 => 212 + l
  | 8 => 243 + l
  | 9 => 273 + l
  | 10 => 304 + l
  | _ => 334 + l
  end.

Definition MakeDay (year month date : Z) : Z :=
  let ym := year + month / 12 in
  let mn := month mod 12 in
  DayFromYear ym + DaysBeforeMonth mn (DaysInYear ym =? 366) + date - 1.

Definition MakeDate (day time : Z) : Z := day * msPerDay + time.

Definition maxTime : Z := 8640000000000000.

(** [TimeClip]: a time value beyond +-8.64e15 ms is [NaN]. *)
Definition TimeClip (t : Z) : option Z :=
  if maxTime <? Z.abs t then None else Some t.

End ESDate.

Import ESDate.

(** ** Strings *)

Definition lower_ascii (c : ascii) : ascii :=
  let n := nat_of_ascii c in
  if (Nat.leb 65 n && Nat.leb n 90)%bool then ascii_of_nat (n + 32) else c.

(** [s.toLowerCase()] on the ASCII letters.  The result is only compared
    with ["header"] and ["footer"], and no character outside ASCII
    lower-cases to one of their letters. *)
Fixpoint toLowerCase (s : string) : string :=
  match s with
  | EmptyString => EmptyString
  | String c rest => String (lower_ascii c) (toLowerCase rest)
  end.

Definition is_empty_string (s : string) : bool :=
  match s with EmptyString => true | _ => false end.

(** Decimal text of a number, as string concatenation produces it.  The
    integers printed here (years, months, days) are far below 1e21, where
    JavaScript switches to exponent notation. *)
Definition number_toString (n : number) : string :=
  match n with
  | Fin z => DecimalString.NilZero.string_of_int (Z.to_int z)
  | PosInfinity => "Infinity"
  | NegInfinity => "-Infinity"
  | NaN => "NaN"
  end.

(** [str.replace(/(<([^>]+)>)/gi, "")]: every ["<"] that is followed by at
    least one character other than [">"] and then by a [">"] is removed
    together with everything up to that first [">"].  [find_gt s] is the
    text after the first [">"] of [s], and how many characters precede it. *)
Fixpoint find_gt (s : string) : option (nat * string) :=
  match s with
  | EmptyString => None
  | String c rest =>
      if Ascii.eqb c ">" then Some (O, rest)
      else match find_gt rest with
           | Some (k, after) => Some (S k, after)
           | None => None
           end
  end.

Fixpoint strip_tags_fuel (fuel : nat) (s : string) : string :=
  match fuel with
  | O => s
  | S fuel' =>
      match s with
      | EmptyString => EmptyString
      | String c rest =>
          if Ascii.eqb c "<" then
            match find_gt rest with
            | None => s
            | Some (O, _) => String c (strip_tags_fuel fuel' rest)
            | Some (S _, after) => strip_tags_fuel fuel' after
            end
          else String c (strip_tags_fuel fuel' rest)
      end
  end.

Definition strip_tags (s : string) : string := strip_tags_fuel (String.length s) s.

(** The character [c] occurs in [s]. *)
Fixpoint has_char (c : ascii) (s : string) : bool :=
  match s with
  | EmptyString => false
  | String a rest => (Ascii.eqb a c || has_char c rest)%bool
  end.

(** What [extractContent] returns: the boolean [false], or a string. *)
Inductive extracted : Type :=
| ExFalse
| ExText (s : string).

(** [extractContent(str)] *)
Definition extractContent (str : option string) : extracted :=
  match str with
  | None => ExFalse
  | Some s => if is_empty_string s then ExFalse else ExText (strip_tags s)
  end.

(** ** Date objects *)

Inductive JSDate : Type :=
| ValidDate (t : Z)
| InvalidDate.

(** ** Settings ([VisualSettings], parsed by the host from the data view) *)

Record dataPointSettings : Type := { layout : string }.

Record displayYearsSettings : Type := { PreviousYear : Z; FutureYear : Z }.

Record legendColorsSettings : Type :=
  { Regulatory : string; Commercial : string; ClinicalTrail : string }.

Record VisualSettings : Type :=
  { dataPoint : dataPointSettings;
    displayYears : displayYearsSettings;
    legendColors : legendColorsSettings }.

(** ** d3 scales, in exact arithmetic *)

(** [interpolateNumber(a, b)(t)] *)
Definition interpolateNumber (a b t : Q) : Q := (a * (1 - t) + b * t)%Q.

(** [d3.scaleLinear().domain([d0, d1]).range([r0, r1])] applied to [x]; a
    domain of width zero maps everything to the middle of the range. *)
Definition scaleLinear (d0 d1 r0 r1 x : Q) : Q :=
  let t := if Qeq_bool d0 d1 then (1 # 2)%Q else ((x - d0) / (d1 - d0))%Q in
  interpolateNumber r0 r1 t.

(** Margins of the plot area. *)
Definition margin_top : Q := 50%Q.
Definition margin_right : Q := 40%Q.
Definition margin_bottom : Q := 50%Q.
Definition margin_left : Q := 40%Q.

(** [this.yScale]: domain [-100, 100] onto the range [gHeight, margin.top]. *)
Definition yScale (gHeight : Q) (v : Z) : Q :=
  scaleLinear (-100 # 1) (100 # 1) gHeight margin_top (inject_Z v).

Inductive TickMode : Type :=
| MonthlyTicks
| YearlyTicks.

(** ** The host and the libraries the visual calls *)

(** The numeric cells of the table: their truthiness and [toString]. *)
Class NumberCells : Type :=
  { double : Type;
    double_truthy : double -> bool;
    double_toString : double -> string }.

Section DataViewModel.

Context {cells : NumberCells}.

Inductive PrimitiveValue : Type :=
| PVundefined
| PVnull
| PVstring (s : string)
| PVnumber (x : double)
| PVboolean (b : bool)
| PVdate (d : JSDate).

(** A column: the names of the roles its [roles] object owns. *)
Record DataViewMetadataColumn : Type := { roles : list string }.

Record DataViewTable : Type :=
  { columns : list DataViewMetadataColumn;
    rows : list (list PrimitiveValue) }.

Record DataView : Type := { table : DataViewTable }.

End DataViewModel.

(** [LocalTZA] is the local time zone offset in milliseconds, [Date_parse]
    is [Date.parse] ([NaN] on text it cannot read), [ToNumber_text s] is the
    text of the number [+s] once it is concatenated to a string,
    [createSelectionId tableView i] is
    [host.createSelectionIdBuilder().withTable(tableView, i).createSelectionId()]
    and [getComputedTextLength] measures the text of a tspan. *)
Class Host {cells : NumberCells} : Type :=
  { LocalTZA : Z;
    Date_parse : string -> number;
    Date_toString : JSDate -> string;
    sanitizeHtml : option string -> string;
    ToNumber_text : string -> string;
    validDataUrl : option string -> bool;
    ISelectionId : Type;
    createSelectionId : DataViewTable -> nat -> ISelectionId;
    getComputedTextLength : string -> Q }.

(** ** The visual *)

Section Visual.

Context {cells : NumberCells} {host : Host}.

(** *** Date methods *)

Definition LocalTime (t : Z) : Z := t + LocalTZA.

Definition UTC (t : Z) : Z := t - LocalTZA.

(** [new Date(value)] *)
Definition Date_ofValue (v : number) : JSDate :=
  match v with
  | Fin t => match TimeClip t with Some t' => ValidDate t' | None => InvalidDate end
  | _ => InvalidDate
  end.

(** [new Date(year, month, date)]: a year from 0 to 99 means 1900 + year. *)
Definition Date_ofYMD (year : number) (month date : Z) : JSDate :=
  match year with
  | Fin y =>
      let yr := if ((0 <=? y) && (y <=? 99))%bool then 1900 + y else y in
      Date_ofValue (Fin (UTC (MakeDate (MakeDay yr month date) 0)))
  | _ => InvalidDate
  end.

Definition getTime (d : JSDate) : number :=
  match d with ValidDate t => Fin t | InvalidDate => NaN end.

Definition getFullYear (d : JSDate) : number :=
  match d with ValidDate t => Fin (YearFromTime (LocalTime t)) | InvalidDate => NaN end.

Definition getMonth (d : JSDate) : number :=
  match d with ValidDate t => Fin (MonthFromTime (LocalTime t)) | InvalidDate => NaN end.

Definition getDate (d : JSDate) : number :=
  match d with ValidDate t => Fin (DateFromTime (LocalTime t)) | InvalidDate => NaN end.

(** A [Date | null] used as a number: [null] is 0. *)
Definition date_ToNumber (d : option JSDate) : number :=
  match d with Some dt => getTime dt | None => Fin 0 end.

(** A [Date | null] concatenated to a string. *)
Definition date_ToString (d : option JSDate) : string :=
  match d with Some dt => Date_toString dt | None => "null" end.

(** [d.getFullYear()] on a [Date | null]: a method call on [null] throws. *)
Definition call_getFullYear (d : option JSDate) : result number :=
  match d with Some dt => Ok (getFullYear dt) | None => Throw TypeError end.

(** *** The data view *)

Definition truthy (v : PrimitiveValue) : bool :=
  match v with
  | PVundefined | PVnull => false
  | PVstring s => negb (is_empty_string s)
  | PVnumber x => double_truthy x
  | PVboolean b => b
  | PVdate _ => true
  end.

(** [v.toString()] *)
Definition toString (v : PrimitiveValue) : result string :=
  match v with
  | PVundefined | PVnull => Throw TypeError
  | PVstring s => Ok s
  | PVnumber x => Ok (double_toString x)
  | PVboolean b => Ok (if b then "true" else "false")%string
  | PVdate d => Ok (Date_toString d)
  end.

Record TimelineData : Type :=
  { Company : string;
    Type_ : string;
    Description : option string;
    Date : option JSDate;
    DocumentLink : option string;
    HeaderImage : option string;
    FooterImage : option string;
    selectionId : ISelectionId }.

(** *** CONVERTER *)

Definition hasOwnProperty (names : list string) (name : string) : bool :=
  existsb (String.eqb name) names.

Record RoleIndexes : Type :=
  { companyIndex : Z;
    typeIndex : Z;
    descIndex : Z;
    dateIndex : Z;
    linkIndex : Z;
    headerImageIndex : Z;
    footerImageIndex : Z }.

Definition no_indexes : RoleIndexes :=
  {| companyIndex := -1; typeIndex := -1; descIndex := -1; dateIndex := -1;
     linkIndex := -1; headerImageIndex := -1; footerImageIndex := -1 |}.

(** The body of the column loop at column [ti]. *)
Definition scan_column (ti : Z) (col : DataViewMetadataColumn) (ix : RoleIndexes)
  : RoleIndexes :=
  if hasOwnProperty (roles col) "Company" then
    {| companyIndex := ti; typeIndex := typeIndex ix; descIndex := descIndex ix;
       dateIndex := dateIndex ix; linkIndex := linkIndex ix;
       headerImageIndex := headerImageIndex ix;
       footerImageIndex := footerImageIndex ix |}
  else if hasOwnProperty (roles col) "Type" then
    {| companyIndex := companyIndex ix; typeIndex := ti; descIndex := descIndex ix;
       dateIndex := dateIndex ix; linkIndex := linkIndex ix;
       headerImageIndex := headerImageIndex ix;
       footerImageIndex := footerImageIndex ix |}
  else if hasOwnProperty (roles col) "Description" then
    {| companyIndex := companyIndex ix; typeIndex := typeIndex ix; descIndex := ti;
       dateIndex := dateIndex ix; linkIndex := linkIndex ix;
       headerImageIndex := headerImageIndex ix;
       footerImageIndex := footerImageIndex ix |}
  else if hasOwnProperty (roles col) "Date" then
    {| companyIndex := companyIndex ix; typeIndex := typeIndex ix;
       descIndex := descIndex ix; dateIndex := ti; linkIndex := linkIndex ix;
       headerImageIndex := headerImageIndex ix;
       footerImageIndex := footerImageIndex ix |}
  else if hasOwnProperty (roles col) "DocumentLink" then
    {| companyIndex := companyIndex ix; typeIndex := typeIndex ix;
       descIndex := descIndex ix; dateIndex := dateIndex ix; linkIndex := ti;
       headerImageIndex := headerImageIndex ix;
       footerImageIndex := footerImageIndex ix |}
  else if hasOwnProperty (roles col) "HeaderImage" then
    {| companyIndex := companyIndex ix; typeIndex := typeIndex ix;
       descIndex := descIndex ix; dateIndex := dateIndex ix;
       linkIndex := linkIndex ix; headerImageIndex := ti;
       footerImageIndex := footerImageIndex ix |}
  else if hasOwnProperty (roles col) "FooterImage" then
    {| companyIndex := companyIndex ix; typeIndex := typeIndex ix;
       descIndex := descIndex ix; dateIndex := dateIndex ix;
       linkIndex := linkIndex ix; headerImageIndex := headerImageIndex ix;
       footerImageIndex := ti |}
  else ix.

(** The column loop, from column [ti] on. *)
Fixpoint scan_columns (cols : list DataViewMetadataColumn) (ti : Z) (ix : RoleIndexes)
  : RoleIndexes :=
  match cols with
  | [] => ix
  | col :: rest => scan_columns rest (ti + 1) (scan_column ti col ix)
  end.

(** [row[index]]: [undefined] at -1 and past the end of the row. *)
Definition row_get (row : list PrimitiveValue) (index : Z) : PrimitiveValue :=
  if index <? 0 then PVundefined else nth (Z.to_nat index) row PVundefined.

(** [v ? v.toString() : null] *)
Definition toString_or_null (v : PrimitiveValue) : result (option string) :=
  if truthy v then bind (toString v) (fun s => Ok (Some s)) else Ok None.

(** The record built from row [i]. *)
Definition convert_row (tableView : DataViewTable) (ix : RoleIndexes) (i : nat)
  (row : list PrimitiveValue) : result TimelineData :=
  bind (toString (row_get row (companyIndex ix))) (fun company =>
  bind (if truthy (row_get row (typeIndex ix))
        then toString (row_get row (typeIndex ix)) else Ok ""%string) (fun type =>
  bind (toString_or_null (row_get row (descIndex ix))) (fun desc =>
  bind (if truthy (row_get row (dateIndex ix))
        then bind (toString (row_get row (dateIndex ix)))
               (fun s => Ok (Some (Date_ofValue (Date_parse s))))
        else Ok None) (fun date =>
  bind (toString_or_null (row_get row (linkIndex ix))) (fun link =>
  bind (toString_or_null (row_get row (headerImageIndex ix))) (fun himg =>
  bind (toString_or_null (row_get row (footerImageIndex ix))) (fun fimg =>
  Ok {| Company := company; Type_ := type; Description := desc; Date := date;
        DocumentLink := link; HeaderImage := himg; FooterImage := fimg;
        selectionId := createSelectionId tableView i |}))))))).

(** The row loop, from row [i] on: the first row that throws ends it. *)
Fixpoint convert_rows (tableView : DataViewTable) (ix : RoleIndexes) (i : nat)
  (rs : list (list PrimitiveValue)) : result (list TimelineData) :=
  match rs with
  | [] => Ok []
  | row :: rest =>
      bind (convert_row tableView ix i row) (fun dp =>
      bind (convert_rows tableView ix (S i) rest) (fun dps => Ok (dp :: dps)))
  end.

Definition CONVERTER (dataView : DataView) : result (list TimelineData) :=
  let tableView := table dataView in
  let ix := scan_columns (columns tableView) 0 no_indexes in
  convert_rows tableView ix 0 (rows tableView).

(** *** update: the cap, the year window and the axis domain *)

(** [xs.slice(0, 100)] *)
Definition slice_0_100 {A : Type} (xs : list A) : list A := firstn 100 xs.

(** [xs.filter(e => e)] on what a [map] callback returned: an element, or
    [undefined] when the callback fell through. *)
Fixpoint filter_defined {A : Type} (xs : list (option A)) : list A :=
  match xs with
  | [] => []
  | Some x :: rest => x :: filter_defined rest
  | None :: rest => filter_defined rest
  end.

(** [xs.map((d) => { if (test(d)) { return d; } }).filter(e => e)] *)
Definition map_if_filter (test : TimelineData -> result bool) (xs : list TimelineData)
  : result (list TimelineData) :=
  bind (mapM (fun d => bind (test d) (fun b => Ok (if b then Some d else None))) xs)
       (fun ys => Ok (filter_defined ys)).

(** [d.Date.getFullYear() >= minDate.getFullYear()] *)
Definition year_ge (minDate : JSDate) (d : TimelineData) : result bool :=
  bind (call_getFullYear (Date d)) (fun y => Ok (num_ge y (getFullYear minDate))).

(** [d.Date.getFullYear() <= maxDate.getFullYear()] *)
Definition year_le (maxDate : JSDate) (d : TimelineData) : result bool :=
  bind (call_getFullYear (Date d)) (fun y => Ok (num_le y (getFullYear maxDate))).

(** The variables [minDate], [maxDate] ([None] while still [undefined]) and
    [timelineLocalData] after the window filter. *)
Record Windowed : Type :=
  { w_minDate : option JSDate;
    w_maxDate : option JSDate;
    timelineLocalData : list TimelineData }.

(** [new Date(currentDate.getFullYear() - this.settings.displayYears.PreviousYear, 0, 1)],
    where [now] is the time value of [currentDate = new Date()]. *)
Definition window_start (settings : VisualSettings) (now : Z) : JSDate :=
  let currentDate := ValidDate now in
  Date_ofYMD (num_sub (getFullYear currentDate)
                      (Fin (PreviousYear (displayYears settings)))) 0 1.

(** [new Date(currentDate.getFullYear() + this.settings.displayYears.FutureYear, 0, 1)] *)
Definition window_end (settings : VisualSettings) (now : Z) : JSDate :=
  let currentDate := ValidDate now in
  Date_ofYMD (num_add (getFullYear currentDate)
                      (Fin (FutureYear (displayYears settings)))) 0 1.

(** The year window of [update]. *)
Definition window_filter (settings : VisualSettings) (now : Z)
  (timelineData : list TimelineData) : result Windowed :=
  if (0 <? List.length timelineData)%nat then
    let minDate := window_start settings now in
    bind (map_if_filter (year_ge minDate) timelineData) (fun local1 =>
    let maxDate := window_end settings now in
    bind (map_if_filter (year_le maxDate) local1) (fun local2 =>
    Ok {| w_minDate := Some minDate; w_maxDate := Some maxDate;
          timelineLocalData := local2 |}))
  else Ok {| w_minDate := None; w_maxDate := None; timelineLocalData := [] |}.

(** What the render steps receive: the active records and the domain. *)
Record Resolved : Type :=
  { active : list TimelineData;
    minDate : option JSDate;
    maxDate : option JSDate }.

(** The windowed records when there are some, else every record and the
    extent of the data. *)
(** [new Date(Math.min.apply(null, timelineData.map(d => d.Date)))] and
    its [Math.max] twin. *)
Definition earliest (timelineData : list TimelineData) : JSDate :=
  Date_ofValue (Math_min (map (fun d => date_ToNumber (Date d)) timelineData)).

Definition latest (timelineData : list TimelineData) : JSDate :=
  Date_ofValue (Math_max (map (fun d => date_ToNumber (Date d)) timelineData)).

Definition resolve_domain (timelineData : list TimelineData) (w : Windowed) : Resolved :=
  if (0 <? List.length (timelineLocalData w))%nat then
    {| active := timelineLocalData w; minDate := w_minDate w; maxDate := w_maxDate w |}
  else
    let minDate0 := earliest timelineData in
    let maxDate0 := latest timelineData in
    {| active := timelineData;
       minDate := Some (Date_ofYMD (getFullYear minDate0) 0 1);
       maxDate := Some (Date_ofYMD (num_add (getFullYear maxDate0) (Fin 1)) 0 1) |}.

(** Lines 130 to 147 of [update]: the window filter, then the domain. *)
Definition update_window (settings : VisualSettings) (now : Z)
  (timelineData : list TimelineData) : result Resolved :=
  bind (window_filter settings now timelineData) (fun w =>
  Ok (resolve_domain timelineData w)).

(** *** renderHeaderAndFooter *)

Inductive HeaderFooter : Type :=
| NoImage
| HeaderImg (src : option string)
| FooterImg (src : option string).

(** [validDataUrl(img) ? img : ""] *)
Definition image_src (img : option string) : option string :=
  if validDataUrl img then img else Some ""%string.

Definition is_layout (settings : VisualSettings) (name : string) : bool :=
  String.eqb (toLowerCase (layout (dataPoint settings))) name.

(** [let [timeline] = timelineData] leaves [timeline] undefined on the
    empty array, and reading a field of it throws. *)
Definition renderHeaderAndFooter (settings : VisualSettings)
  (timelineData : list TimelineData) : result HeaderFooter :=
  let timeline := hd_error timelineData in
  if is_layout settings "header" then
    match timeline with
    | Some t => Ok (HeaderImg (image_src (HeaderImage t)))
    | None => Throw TypeError
    end
  else if is_layout settings "footer" then
    match timeline with
    | Some t => Ok (FooterImg (image_src (FooterImage t)))
    | None => Throw TypeError
    end
  else Ok NoImage.

(** *** renderXandYAxis and diff_years *)

(** [Math.round(x)]: the nearest integer, a tie going up. *)
Definition Math_round (x : Q) : Z := Qfloor (x + (1 # 2))%Q.

(** [diff_years(dt2, dt1)] on two Date objects. *)
Definition diff_years_dates (dt2 dt1 : JSDate) : number :=
  match getTime dt2, getTime dt1 with
  | Fin t2, Fin t1 =>
      let diff := (inject_Z (t2 - t1) / 1000)%Q in
      let diff := (diff / (60 * 60 * 24))%Q in
      Fin (Z.abs (Math_round (diff / (36525 # 100))%Q))
  | _, _ => NaN
  end.

(** [diff_years(dt2, dt1)]: [getTime] on [undefined] throws. *)
Definition diff_years (dt2 dt1 : option JSDate) : result number :=
  match dt2, dt1 with
  | Some a, Some b => Ok (diff_years_dates a b)
  | _, _ => Throw TypeError
  end.

(** The tick granularity [renderXandYAxis] chooses. *)
Definition renderXandYAxis_ticks (minDate maxDate : option JSDate) : result TickMode :=
  bind (diff_years minDate maxDate) (fun n =>
  Ok (if num_le n (Fin 1) then MonthlyTicks else YearlyTicks)).

(** [this.xScale(d)]: the time scale over [minDate, maxDate] onto
    [margin.left, gWidth]; [None] is [NaN]. *)
Definition xScale (minDate maxDate : option JSDate) (gWidth : Q) (d : option JSDate)
  : option Q :=
  match minDate, maxDate with
  | Some lo, Some hi =>
      match getTime lo, getTime hi, date_ToNumber d with
      | Fin t0, Fin t1, Fin t =>
          Some (scaleLinear (inject_Z t0) (inject_Z t1) margin_left gWidth (inject_Z t))
      | _, _, _ => None
      end
  | _, _ => None
  end.

(** [x + k] where [x] may be [NaN]. *)
Definition plus_px (x : option Q) (k : Q) : option Q :=
  match x with Some q => Some (q + k)%Q | None => None end.

(** *** Lanes and stagger levels *)

(** [Math.ceil(i / 2)] on an array index. *)
Definition Math_ceil_half (i : nat) : nat :=
  (i / 2 + (if i mod 2 =? 0 then 0 else 1))%nat.

(** The value [renderLine] hands to [yScale] for the [y] of bar [i]. *)
Definition renderLine_y_level (i : nat) : Z :=
  if (i mod 2 =? 0)%nat then -27
  else
    let count := Math_ceil_half i in
    if (count mod 2 =? 0)%nat then 70 else 30.

(** The value [renderLine] hands to [yScale] for the height of bar [i]; in
    the even branch [i / 2] is exact. *)
Definition renderLine_height_level (i : nat) : Z :=
  if (i mod 2 =? 0)%nat then
    let count := (i / 2)%nat in
    if (count mod 2 =? 0)%nat then -45 else -85
  else
    let count := Math_ceil_half i in
    if (count mod 2 =? 0)%nat then -45 else -85.

Definition renderLine_y (gHeight : Q) (i : nat) : Q :=
  yScale gHeight (renderLine_y_level i).

Definition renderLine_height (gHeight : Q) (i : nat) : Q :=
  (gHeight - yScale gHeight (renderLine_height_level i))%Q.

(** The value [renderArrow] hands to [yScale], and whether the glyph is
    rotated by 180 degrees. *)
Definition renderArrow_level (i : nat) : Z * bool :=
  if (i mod 2 =? 0)%nat then (-25, false) else (14, true).

(** The value [renderBox] hands to [yScale] for the box of record [i]. *)
Definition renderBox_level (i : nat) : Z :=
  if (i mod 2 =? 0)%nat then
    let count := (i / 2)%nat in
    if (count mod 2 =? 0)%nat then -80 else -40
  else
    let count := Math_ceil_half i in
    if (count mod 2 =? 0)%nat then 95 else 55.

(** *** Colours, titles, tooltips *)

(** The [fill] callbacks: [None] is the [undefined] of a callback that
    falls through. *)
Definition type_fill (settings : VisualSettings) (d : TimelineData) : option string :=
  if String.eqb (Type_ d) "Regulatory" then Some (Regulatory (legendColors settings))
  else if String.eqb (Type_ d) "Commercial" then Some (Commercial (legendColors settings))
  else if String.eqb (Type_ d) "Clinical Trials"
       then Some (ClinicalTrail (legendColors settings))
  else None.

Definition box_class (d : TimelineData) : option string :=
  if String.eqb (Type_ d) "Regulatory" then Some "rect regulatory"%string
  else if String.eqb (Type_ d) "Commercial" then Some "rect commercial"%string
  else if String.eqb (Type_ d) "Clinical Trials" then Some "rect clinical-trails"%string
  else None.

(** [sanitizeHtml(d.Description) + '(' + d.Date + ')'] *)
Definition title_of (d : TimelineData) : string :=
  (sanitizeHtml (Description d) ++ "(" ++ date_ToString (Date d) ++ ")")%string.

(** The text set on a box: [extractContent(sanitizeHtml(d.Description))],
    where the boolean [false] ends as the text ["false"]. *)
Definition box_text (d : TimelineData) : string :=
  match extractContent (Some (sanitizeHtml (Description d))) with
  | ExFalse => "false"%string
  | ExText s => s
  end.

(** [dateHtml] of the [mousemove] handler: month/day/year in a block. *)
Definition dateHtml (dt : JSDate) : string :=
  ("<div>" ++ number_toString (num_add (getMonth dt) (Fin 1)) ++ "/"
   ++ number_toString (getDate dt) ++ "/"
   ++ number_toString (getFullYear dt) ++ "</div>")%string.

(** The [mousemove] handler's [html]. *)
Definition tooltip_html (d : TimelineData) : result string :=
  match Date d with
  | None => Throw TypeError
  | Some dt =>
      Ok (if String.eqb (Type_ d) "Regulatory" then
            (dateHtml dt ++ "<div>" ++ sanitizeHtml (Some (Company d)) ++ "</div>"
             ++ "<div>" ++ sanitizeHtml (Description d) ++ "</div>")%string
          else if String.eqb (Type_ d) "Commercial" then
            (dateHtml dt ++ "<div>" ++ sanitizeHtml (Some (Company d)) ++ "</div>"
             ++ "<div>" ++ sanitizeHtml (Description d) ++ "</div>")%string
          else if String.eqb (Type_ d) "Clinical Trials" then
            (dateHtml dt ++ "<div>" ++ sanitizeHtml (Some (Company d)) ++ "</div>"
             ++ "<div>" ++ ToNumber_text (sanitizeHtml (Description d))
             ++ "</div>")%string
          else ""%string)
  end.

(** *** wrap *)

(** The [while] loop of [wrap] over the words still to place (in reading
    order); [line] is the current line and [done] the texts of the tspans
    already closed.  An empty word is falsy and ends the loop.  The result
    lists the text of every tspan, top to bottom. *)
Fixpoint wrap_loop (width : Q) (words : list string) (line : list string)
  (done : list string) : list string :=
  match words with
  | [] => done ++ [String.concat " " line]
  | word :: rest =>
      if is_empty_string word then done ++ [String.concat " " line]
      else if Qlt_le_dec width (getComputedTextLength (String.concat " " (line ++ [word])))
      then wrap_loop width rest [word] (done ++ [String.concat " " line])
      else wrap_loop width rest (line ++ [word]) done
  end.

(** [wrap] on a text already split into [words]. *)
Definition wrap (words : list string) (width : Q) : list string :=
  wrap_loop width words [] [].

(** *** The render steps and update *)

(** [xs] with the index d3 passes to each callback. *)
Definition indexed {A : Type} (xs : list A) : list (nat * A) :=
  combine (seq 0 (List.length xs)) xs.

Record LineAttrs : Type :=
  { line_title : string;
    line_x : option Q;
    line_y : Q;
    line_height : Q;
    line_fill : option string }.

Record ArrowAttrs : Type :=
  { arrow_title : string;
    arrow_fill : option string;
    arrow_x : option Q;
    arrow_y : Q;
    arrow_rotated : bool }.

Record BoxAttrs : Type :=
  { box_css : option string;
    box_fill : option string;
    box_title : string;
    box_x : option Q;
    box_y : Q;
    box_href : option string;
    box_label : string;
    box_id : ISelectionId }.

Definition renderLine (settings : VisualSettings) (minDate maxDate : option JSDate)
  (gWidth gHeight : Q) (timelineData : list TimelineData) : list LineAttrs :=
  map (fun p : nat * TimelineData =>
         let (i, d) := p in
         {| line_title := title_of d;
            line_x := plus_px (xScale minDate maxDate gWidth (Date d)) 20;
            line_y := renderLine_y gHeight i;
            line_height := renderLine_height gHeight i;
            line_fill := type_fill settings d |})
      (indexed timelineData).

Definition renderArrow (settings : VisualSettings) (minDate maxDate : option JSDate)
  (gWidth gHeight : Q) (timelineData : list TimelineData) : list ArrowAttrs :=
  map (fun p : nat * TimelineData =>
         let (i, d) := p in
         {| arrow_title := title_of d;
            arrow_fill := type_fill settings d;
            arrow_x := plus_px (xScale minDate maxDate gWidth (Date d)) 22;
            arrow_y := yScale gHeight (fst (renderArrow_level i));
            arrow_rotated := snd (renderArrow_level i) |})
      (indexed timelineData).

Definition renderBox (settings : VisualSettings) (minDate maxDate : option JSDate)
  (gWidth gHeight : Q) (timelineData : list TimelineData) : list BoxAttrs :=
  map (fun p : nat * TimelineData =>
         let (i, d) := p in
         {| box_css := box_class d;
            box_fill := type_fill settings d;
            box_title := title_of d;
            box_x := plus_px (xScale minDate maxDate gWidth (Date d)) (-25);
            box_y := yScale gHeight (renderBox_level i);
            box_href := DocumentLink d;
            box_label := box_text d;
            box_id := selectionId d |})
      (indexed timelineData).

Record Rendered : Type :=
  { svg_width : Q;
    svg_height : Q;
    headerFooter : HeaderFooter;
    ticks : TickMode;
    domain : option JSDate * option JSDate;
    shown : list TimelineData;
    lines : list LineAttrs;
    arrows : list ArrowAttrs;
    boxes : list BoxAttrs }.

(** The render steps of [update] on the converted records. *)
Definition render (settings : VisualSettings) (width height : Q) (now : Z)
  (converted : list TimelineData) : result Rendered :=
  let vpWidth := width in
  let vpHeight :=
    if (is_layout settings "header" || is_layout settings "footer")%bool
    then (height - 105)%Q else height in
  let gHeight := (vpHeight - margin_top - margin_bottom)%Q in
  let gWidth := (vpWidth - margin_left - margin_right)%Q in
  let timelineData := slice_0_100 converted in
  bind (update_window settings now timelineData) (fun r =>
  bind (renderHeaderAndFooter settings (active r)) (fun hf =>
  bind (renderXandYAxis_ticks (minDate r) (maxDate r)) (fun tk =>
  Ok {| svg_width := vpWidth;
        svg_height := vpHeight;
        headerFooter := hf;
        ticks := tk;
        domain := (minDate r, maxDate r);
        shown := active r;
        lines := renderLine settings (minDate r) (maxDate r) gWidth gHeight (active r);
        arrows := renderArrow settings (minDate r) (maxDate r) gWidth gHeight (active r);
        boxes := renderBox settings (minDate r) (maxDate r) gWidth gHeight (active r) |}))).

(** [update(options)]: [settings] is what [parseSettings] returned, [width]
    and [height] the viewport, [now] the clock. *)
Definition update (settings : VisualSettings) (width height : Q) (now : Z)
  (dataView : DataView) : result Rendered :=
  bind (CONVERTER dataView) (render settings width height now).

(** *** Vocabulary of the properties *)

(** A Date object with a finite time value, which JavaScript keeps within
    8.64e15 ms of the epoch. *)
Definition is_valid_date (d : option JSDate) : Prop :=
  exists t, d = Some (ValidDate t) /\ Z.abs t <= maxTime.

(** The local calendar year of a time value. *)
Definition year_of_time (t : Z) : Z := YearFromTime (LocalTime t).

(** One of the three types the visual knows. *)
Definition recognized (ty : string) : bool :=
  (String.eqb ty "Regulatory" || String.eqb ty "Commercial"
   || String.eqb ty "Clinical Trials")%bool.

(** A line that [wrap] may leave: empty, a single word, or within the
    width. *)
Definition line_ok (width : Q) (words : list string) (text : string) : Prop :=
  text = ""%string \/ In text words
  \/ (getComputedTextLength text <= width)%Q.

(** The words [wrap] places: those before the first empty one. *)
Fixpoint placed_words (words : list string) : list string :=
  match words with
  | [] => []
  | word :: rest => if is_empty_string word then [] else word :: placed_words rest
  end.

(** The record's date is [null]. *)
Definition has_null_date (d : TimelineData) : bool :=
  match Date d with None => true | Some _ => false end.

(** The year of a record's date; [NaN] when it has none. *)
Definition record_year (d : TimelineData) : number :=
  match Date d with Some dt => getFullYear dt | None => NaN end.

(** 1 January of [year], as [new Date(year, 0, 1)] builds it. *)
Definition january_1 (year : number) : JSDate := Date_ofYMD year 0 1.

(** The record's year lies between the years of the two ends. *)
Definition in_year_window (settings : VisualSettings) (now : Z) (d : TimelineData)
  : bool :=
  (num_ge (record_year d) (getFullYear (window_start settings now))
   && num_le (record_year d) (getFullYear (window_end settings now)))%bool.

(** The roles the converter knows, in the order of its conditional chain. *)
Inductive Role : Type :=
| RoleCompany
| RoleType
| RoleDescription
| RoleDate
| RoleDocumentLink
| RoleHeaderImage
| RoleFooterImage.

Definition role_name (r : Role) : string :=
  match r with
  | RoleCompany => "Company"
  | RoleType => "Type"
  | RoleDescription => "Description"
  | RoleDate => "Date"
  | RoleDocumentLink => "DocumentLink"
  | RoleHeaderImage => "HeaderImage"
  | RoleFooterImage => "FooterImage"
  end.

Definition chain : list Role :=
  [RoleCompany; RoleType; RoleDescription; RoleDate; RoleDocumentLink;
   RoleHeaderImage; RoleFooterImage].

(** The branch of the chain a column takes: the first role, in chain
    order, that the column carries. *)
Definition selected_role (col : DataViewMetadataColumn) : option Role :=
  find (fun r => hasOwnProperty (roles col) (role_name r)) chain.

Definition role_eqb (a b : Role) : bool :=
  match a, b with
  | RoleCompany, RoleCompany | RoleType, RoleType
  | RoleDescription, RoleDescription | RoleDate, RoleDate
  | RoleDocumentLink, RoleDocumentLink | RoleHeaderImage, RoleHeaderImage
  | RoleFooterImage, RoleFooterImage => true
  | _, _ => false
  end.

Definition selects (r : Role) (col : DataViewMetadataColumn) : bool :=
  match selected_role col with Some r' => role_eqb r r' | None => false end.

Definition index_of (ix : RoleIndexes) (r : Role) : Z :=
  match r with
  | RoleCompany => companyIndex ix
  | RoleType => typeIndex ix
  | RoleDescription => descIndex ix
  | RoleDate => dateIndex ix
  | RoleDocumentLink => linkIndex ix
  | RoleHeaderImage => headerImageIndex ix
  | RoleFooterImage => footerImageIndex ix
  end.

(** The cell of [row] that the converter reads for role [r]. *)
Definition cell_of (ix : RoleIndexes) (row : list PrimitiveValue) (r : Role)
  : PrimitiveValue :=
  row_get row (index_of ix r).

(** A cell on which [toString] can be called. *)
Definition has_toString (v : PrimitiveValue) : bool :=
  match v with PVundefined | PVnull => false | _ => true end.

(** How an optional text field follows from its cell: the cell's text when
    the cell is truthy, [null] otherwise. *)
Definition text_slot (v : PrimitiveValue) (field : option string) : Prop :=
  if truthy v then exists s, toString v = Ok s /\ field = Some s else field = None.

(** How the date field follows from its cell: the parse of the cell's text
    when the cell is truthy (an Invalid Date when the text does not parse),
    [null] otherwise. *)
Definition date_slot (v : PrimitiveValue) (field : option JSDate) : Prop :=
  if truthy v
  then exists s, toString v = Ok s /\ field = Some (Date_ofValue (Date_parse s))
  else field = None.

(** What a converted record owes to its row, field by field. *)
Definition converted_from (tableView : DataViewTable) (ix : RoleIndexes) (i : nat)
  (row : list PrimitiveValue) (dp : TimelineData) : Prop :=
  toString (cell_of ix row RoleCompany) = Ok (Company dp)
  /\ (if truthy (cell_of ix row RoleType)
      then toString (cell_of ix row RoleType) = Ok (Type_ dp)
      else Type_ dp = ""%string)
  /\ text_slot (cell_of ix row RoleDescription) (Description dp)
  /\ date_slot (cell_of ix row RoleDate) (Date dp)
  /\ text_slot (cell_of ix row RoleDocumentLink) (DocumentLink dp)
  /\ text_slot (cell_of ix row RoleHeaderImage) (HeaderImage dp)
  /\ text_slot (cell_of ix row RoleFooterImage) (FooterImage dp)
  /\ selectionId dp = createSelectionId tableView i.

(** A year that [new Date(year, 0, 1)] takes as it is: outside 0..99, with
    a representable first instant. *)
Definition plain_year (y : Z) : Prop :=
  (y < 0 \/ 99 < y) /\ Z.abs (UTC (TimeFromYear y)) <= maxTime.

(** The year a bound built from year [y] compares with: [y] itself,
    1900 + [y] for [y] from 0 to 99, [NaN] when the first instant of that
    year is not a representable time. *)
Definition bound_year (y : Z) : number :=
  let yr := if ((0 <=? y) && (y <=? 99))%bool then 1900 + y else y in
  if Z.abs (UTC (TimeFromYear yr)) <=? maxTime then Fin yr else NaN.

(** Local midnight at the start of calendar year [y]. *)
Definition new_year (y : Z) : JSDate := ValidDate (UTC (TimeFromYear y)).

(** The rounded absolute year difference of a domain, in the words of the
    specification: round(|maxDate - minDate| in days / 365.25). *)
Definition rounded_year_span (minDate maxDate : JSDate) : number :=
  match getTime minDate, getTime maxDate with
  | Fin t0, Fin t1 =>
      let days := (Qabs (inject_Z (t1 - t0)) / inject_Z msPerDay)%Q in
      Fin (Math_round (days / (36525 # 100))%Q)
  | _, _ => NaN
  end.

End Visual.

(** ** A host to run the examples on

    Integer cells, the UTC time zone, a parser of [YYYY-MM-DD] dates, a
    sanitizer that leaves plain text alone, and row numbers as selection
    identifiers. *)

Module Sample.

Definition digit_of (c : ascii) : option Z :=
  let n := nat_of_ascii c in
  if (Nat.leb 48 n && Nat.leb n 57)%bool then Some (Z.of_nat (n - 48)) else None.

Definition number_of_digits (cs : list ascii) : option Z :=
  fold_left (fun acc c =>
               match acc, digit_of c with
               | Some a, Some k => Some (10 * a + k)
               | _, _ => None
               end) cs (Some 0).

Definition parse (s : string) : number :=
  match list_ascii_of_string s with
  | [y1; y2; y3; y4; "-"%char; m1; m2; "-"%char; d1; d2] =>
      match number_of_digits [y1; y2; y3; y4], number_of_digits [m1; m2],
            number_of_digits [d1; d2] with
      | Some y, Some m, Some d =>
          if ((1 <=? m) && (m <=? 12) && (1 <=? d) && (d <=? 31))%bool
          then Fin (MakeDate (MakeDay y (m - 1) d) 0)
          else NaN
      | _, _, _ => NaN
      end
  | _ => NaN
  end.

(** [+s] as text, for the strings of decimal digits and the others. *)
Definition to_number_text (s : string) : string :=
  match list_ascii_of_string s with
  | [] => "0"
  | cs => match number_of_digits cs with
          | Some n => number_toString (Fin n)
          | None => "NaN"
          end
  end.

Definition date_text (d : JSDate) : string :=
  match d with
  | ValidDate t => number_toString (Fin t)
  | InvalidDate => "Invalid Date"
  end.

#[export] Instance cells : NumberCells :=
  {| double := Z;
     double_truthy := fun z => negb (z =? 0);
     double_toString := fun z => number_toString (Fin z) |}.

#[export] Instance host : Host :=
  {| LocalTZA := 0;
     Date_parse := parse;
     Date_toString := date_text;
     sanitizeHtml := fun o => match o with Some s => s | None => ""%string end;
     ToNumber_text := to_number_text;
     validDataUrl := fun o => match o with
                              | Some s => String.prefix "data:image/" s
                              | None => false
                              end;
     ISelectionId := nat;
     createSelectionId := fun _ i => i;
     getComputedTextLength := fun s => inject_Z (6 * Z.of_nat (String.length s)) |}.

Definition settings (lay : string) (prev fut : Z) : VisualSettings :=
  {| dataPoint := {| layout := lay |};
     displayYears := {| PreviousYear := prev; FutureYear := fut |};
     legendColors := {| Regulatory := "#0f0"; Commercial := "#00f";
                        ClinicalTrail := "#f00" |} |}.

(** A record with the given type, description and date. *)
Definition event (ty : string) (desc : option string) (date : option JSDate)
  : TimelineData :=
  {| Company := "Acme"; Type_ := ty; Description := desc; Date := date;
     DocumentLink := None; HeaderImage := None; FooterImage := None;
     selectionId := O |}.

(** Noon UTC of 1 June 2023, and noon of 1 June 2024 for the clock. *)
Definition june_2023 : Z := 1685620800000.
Definition june_2024 : Z := 1717243200000.

Definition column (names : list string) : DataViewMetadataColumn :=
  {| roles := names |}.

Definition view (cols : list DataViewMetadataColumn) (rs : list (list PrimitiveValue))
  : DataView :=
  {| table := {| columns := cols; rows := rs |} |}.

End Sample.

(** * Properties *)

(** ** Results *)

Lemma bind_Ok_inv {A B : Type} (r : result A) (k : A -> result B) (b : B) :
  bind r k = Ok b -> exists a, r = Ok a /\ k a = Ok b.
Proof.
  destruct r as [a | e]; simpl; intros H; [ exists a; auto | discriminate ].
Qed.

Lemma Ok_inj {A : Type} (a b : A) : Ok a = Ok b -> a = b.
Proof. intros H. congruence. Qed.

Lemma mapM_pure {A B : Type} (f : A -> result B) (g : A -> B) (xs : list A) :
  (forall x, In x xs -> f x = Ok (g x)) -> mapM f xs = Ok (map g xs).
Proof.
  induction xs as [| x rest IH]; intros H; simpl; [ reflexivity | ].
  rewrite (H x) by (left; reflexivity). simpl.
  rewrite IH by (intros y Hy; apply H; right; exact Hy).
  reflexivity.
Qed.

Lemma mapM_throws {A B : Type} (f : A -> result B) (g : A -> B) (xs ys : list A)
  (x : A) (e : error) :
  (forall y, In y xs -> f y = Ok (g y)) -> f x = Throw e ->
  mapM f (xs ++ x :: ys) = Throw e.
Proof.
  induction xs as [| y rest IH]; intros Hpre Hx; simpl.
  - rewrite Hx. reflexivity.
  - rewrite (Hpre y) by (left; reflexivity). simpl.
    rewrite IH; [ reflexivity | | exact Hx ].
    intros z Hz. apply Hpre. right. exact Hz.
Qed.

Lemma mapM_length {A B : Type} (f : A -> result B) (xs : list A) (ys : list B) :
  mapM f xs = Ok ys -> List.length ys = List.length xs.
Proof.
  revert ys. induction xs as [| x rest IH]; simpl; intros ys H.
  - injection H as <-. reflexivity.
  - apply bind_Ok_inv in H. destruct H as (y & _ & H).
    apply bind_Ok_inv in H. destruct H as (ys' & Hrest & H).
    injection H as <-. simpl. f_equal. apply IH. exact Hrest.
Qed.

Lemma filter_defined_map_if {A : Type} (p : A -> bool) (xs : list A) :
  filter_defined (map (fun d => if p d then Some d else None) xs) = filter p xs.
Proof.
  induction xs as [| x rest IH]; simpl; [ reflexivity | ].
  destruct (p x); simpl; rewrite IH; reflexivity.
Qed.

Lemma filter_filter {A : Type} (p q : A -> bool) (xs : list A) :
  filter q (filter p xs) = filter (fun x => (p x && q x)%bool) xs.
Proof.
  induction xs as [| x rest IH]; simpl; [ reflexivity | ].
  destruct (p x); simpl; [ destruct (q x) | ]; rewrite IH; reflexivity.
Qed.

(** ** The calendar *)

Lemma DayFromYear_step (y : Z) :
  DayFromYear (y + 1) - DayFromYear y = DaysInYear y.
Proof.
  unfold DayFromYear, DaysInYear.
  destruct (Z.eqb_spec (y mod 4) 0) as [H4 | H4]; cbn [negb];
    [ destruct (Z.eqb_spec (y mod 100) 0) as [H100 | H100]; cbn [negb];
      [ destruct (Z.eqb_spec (y mod 400) 0) as [H400 | H400]; cbn [negb] | ] | ];
    Z.div_mod_to_equations; lia.
Qed.

Lemma DaysInYear_range (y : Z) : 365 <= DaysInYear y <= 366.
Proof.
  unfold DaysInYear.
  destruct (negb (y mod 4 =? 0)), (negb (y mod 100 =? 0)), (negb (y mod 400 =? 0)); lia.
Qed.

Lemma DayFromYear_lt (a b : Z) : a < b -> DayFromYear a + 365 * (b - a) <= DayFromYear b.
Proof.
  intros H. unfold DayFromYear. Z.div_mod_to_equations. lia.
Qed.

Lemma DayFromYear_mono (a b : Z) : a <= b -> DayFromYear a <= DayFromYear b.
Proof.
  intros H. destruct (Z.eq_dec a b) as [-> | Hne]; [ lia | ].
  pose proof (DayFromYear_lt a b). lia.
Qed.

(** [YearFromTime t] is the year whose days contain [t]. *)
Lemma YearFromTime_spec (t : Z) :
  DayFromYear (YearFromTime t) <= Day t < DayFromYear (YearFromTime t + 1).
Proof.
  unfold YearFromTime. cbv zeta. set (d := Day t).
  destruct (Z.ltb_spec d (DayFromYear (1970 + 400 * d / 146097))) as [H1 | H1].
  - replace (1970 + 400 * d / 146097 - 1 + 1) with (1970 + 400 * d / 146097) by lia.
    split; [ | lia ]. unfold DayFromYear in *. Z.div_mod_to_equations. lia.
  - destruct (Z.leb_spec (DayFromYear (1970 + 400 * d / 146097 + 1)) d) as [H2 | H2].
    + split; [ lia | ]. unfold DayFromYear in *. Z.div_mod_to_equations. lia.
    + lia.
Qed.

(** The year is determined by the day: it is the only one whose days
    contain it. *)
Lemma YearFromTime_unique (t y : Z) :
  DayFromYear y <= Day t < DayFromYear (y + 1) -> YearFromTime t = y.
Proof.
  intros [Hlo Hhi]. pose proof (YearFromTime_spec t) as [Slo Shi].
  destruct (Z.lt_trichotomy (YearFromTime t) y) as [Hlt | [Heq | Hgt]]; [ | exact Heq | ].
  - pose proof (DayFromYear_mono (YearFromTime t + 1) y). lia.
  - pose proof (DayFromYear_mono (y + 1) (YearFromTime t)). lia.
Qed.



Lemma Day_TimeFromYear (y : Z) : Day (TimeFromYear y) = DayFromYear y.
Proof.
  unfold Day, TimeFromYear, msPerDay. rewrite Z.mul_comm. apply Z.div_mul. lia.
Qed.

Lemma YearFromTime_TimeFromYear (y : Z) : YearFromTime (TimeFromYear y) = y.
Proof.
  apply YearFromTime_unique. rewrite Day_TimeFromYear.
  pose proof (DayFromYear_step y). pose proof (DaysInYear_range y). lia.
Qed.

(** ** Lanes and stagger *)

Section Layout.

Context {cells : NumberCells} {host : Host}.

Lemma Math_ceil_half_spec (i : nat) : Math_ceil_half i = ((i + 1) / 2)%nat.
Proof.
  unfold Math_ceil_half.
  pose proof (Nat.div_mod_eq i 2) as Hi.
  pose proof (Nat.mod_upper_bound i 2 ltac:(discriminate)) as Hr.
  pose proof (Nat.div_mod_eq (i + 1) 2) as Hj.
  pose proof (Nat.mod_upper_bound (i + 1) 2 ltac:(discriminate)) as Hs.
  destruct (Nat.eqb_spec (i mod 2) 0); lia.
Qed.

(** Every index is [4 * q + r] with [r < 4], and the parities the layout
    looks at depend on [r] only. *)
Lemma index_parities (i : nat) :
  exists q r : nat, i = (4 * q + r)%nat /\ (r < 4)%nat
    /\ (i mod 2 = r mod 2)%nat
    /\ ((i / 2) mod 2 = (r / 2) mod 2)%nat
    /\ (Math_ceil_half i mod 2 = Math_ceil_half r mod 2)%nat.
Proof.
  exists (i / 4)%nat, (i mod 4)%nat.
  pose proof (Nat.div_mod_eq i 4) as Hi.
  pose proof (Nat.mod_upper_bound i 4 ltac:(discriminate)) as Hr.
  rewrite !Math_ceil_half_spec.
  set (q := (i / 4)%nat) in *. set (r := (i mod 4)%nat) in *.
  split; [ exact Hi | ]. split; [ exact Hr | ].
  assert (E2 : i = (r + (2 * q) * 2)%nat) by lia.
  assert (E4 : (i / 2 = r / 2 + q * 2)%nat).
  { rewrite E2. rewrite Nat.div_add by discriminate. lia. }
  assert (E5 : ((i + 1) / 2 = (r + 1) / 2 + q * 2)%nat).
  { replace (i + 1)%nat with ((r + 1) + (2 * q) * 2)%nat by lia.
    rewrite Nat.div_add by discriminate. lia. }
  split; [ rewrite E2 at 1; apply Nat.Div0.mod_add | ].
  split; [ rewrite E4; apply Nat.Div0.mod_add | ].
  rewrite E5. apply Nat.Div0.mod_add.
Qed.

Lemma renderLine_y_level_mod4 (i : nat) :
  renderLine_y_level i = renderLine_y_level (i mod 4).
Proof.
  destruct (index_parities i) as (q & r & Hi & Hr & H2 & _ & Hc).
  assert (Hm : (i mod 4 = r)%nat).
  { rewrite Hi. rewrite Nat.add_comm, Nat.mul_comm, Nat.Div0.mod_add.
    apply Nat.mod_small. exact Hr. }
  rewrite Hm. unfold renderLine_y_level. rewrite H2, Hc. reflexivity.
Qed.

Lemma renderLine_height_level_mod4 (i : nat) :
  renderLine_height_level i = renderLine_height_level (i mod 4).
Proof.
  destruct (index_parities i) as (q & r & Hi & Hr & H2 & Hf & Hc).
  assert (Hm : (i mod 4 = r)%nat).
  { rewrite Hi. rewrite Nat.add_comm, Nat.mul_comm, Nat.Div0.mod_add.
    apply Nat.mod_small. exact Hr. }
  rewrite Hm. unfold renderLine_height_level. rewrite H2, Hf, Hc. reflexivity.
Qed.

Lemma renderBox_level_mod4 (i : nat) : renderBox_level i = renderBox_level (i mod 4).
Proof.
  destruct (index_parities i) as (q & r & Hi & Hr & H2 & Hf & Hc).
  assert (Hm : (i mod 4 = r)%nat).
  { rewrite Hi. rewrite Nat.add_comm, Nat.mul_comm, Nat.Div0.mod_add.
    apply Nat.mod_small. exact Hr. }
  rewrite Hm. unfold renderBox_level. rewrite H2, Hf, Hc. reflexivity.
Qed.

Lemma add4_mod4 (i : nat) : ((i + 4) mod 4 = i mod 4)%nat.
Proof.
  replace (i + 4)%nat with (i + 1 * 4)%nat by lia. apply Nat.Div0.mod_add.
Qed.

Lemma even_mod2 (i : nat) : Nat.even i = (i mod 2 =? 0)%nat.
Proof.
  pose proof (Nat.mod_upper_bound i 2 ltac:(discriminate)) as Hr.
  pose proof (Nat.div_mod_eq i 2) as Hi.
  destruct (Nat.eqb_spec (i mod 2) 0) as [H | H].
  - apply Nat.even_spec. exists (i / 2)%nat. lia.
  - apply Bool.not_true_is_false. intros He. apply Nat.even_spec in He.
    destruct He as [k Hk]. apply H. rewrite Hk.
    rewrite Nat.mul_comm. apply Nat.Div0.mod_mul.
Qed.

Lemma odd_mod2 (i : nat) : Nat.odd i = negb (i mod 2 =? 0)%nat.
Proof.
  unfold Nat.odd. rewrite even_mod2. reflexivity.
Qed.

Lemma nth_error_indexed_at {A : Type} (xs : list A) (k i : nat) (d : A) :
  nth_error xs i = Some d ->
  nth_error (combine (seq k (List.length xs)) xs) i = Some ((k + i)%nat, d).
Proof.
  revert k i. induction xs as [| x rest IH]; intros k i; cbn [List.length seq combine].
  - destruct i; discriminate.
  - destruct i as [| i]; cbn [nth_error].
    + intros H. injection H as <-. rewrite Nat.add_0_r. reflexivity.
    + intros H. rewrite (IH (S k) i H). f_equal. f_equal. lia.
Qed.

Lemma renderLine_y_level_cycle (i : nat) :
  renderLine_y_level i = nth (i mod 4) [-27; 30; -27; 70] 0.
Proof.
  rewrite renderLine_y_level_mod4.
  pose proof (Nat.mod_upper_bound i 4 ltac:(discriminate)) as Hr.
  destruct (i mod 4)%nat as [| [| [| [| k]]]]; try reflexivity. lia.
Qed.

Lemma renderLine_height_level_cycle (i : nat) :
  renderLine_height_level i = nth (i mod 4) [-45; -85; -85; -45] 0.
Proof.
  rewrite renderLine_height_level_mod4.
  pose proof (Nat.mod_upper_bound i 4 ltac:(discriminate)) as Hr.
  destruct (i mod 4)%nat as [| [| [| [| k]]]]; try reflexivity. lia.
Qed.

Lemma renderLine_y_level_parity (i : nat) :
  renderLine_y_level i
  = if Nat.even i then -27 else if Nat.odd ((i + 1) / 2) then 30 else 70.
Proof.
  unfold renderLine_y_level. rewrite Math_ceil_half_spec, odd_mod2, even_mod2.
  destruct (i mod 2 =? 0)%nat; [ reflexivity | ].
  destruct (((i + 1) / 2) mod 2 =? 0)%nat; reflexivity.
Qed.

Lemma renderLine_height_level_parity (i : nat) :
  renderLine_height_level i
  = if Nat.even (if Nat.even i then i / 2 else (i + 1) / 2)%nat then -45 else -85.
Proof.
  unfold renderLine_height_level. rewrite Math_ceil_half_spec, (even_mod2 i).
  destruct (i mod 2 =? 0)%nat; rewrite even_mod2; reflexivity.
Qed.

(** C1.  [renderLine] draws one bar per record, and the bar of the record
    at index [i] of the sequence it is given lies in the lane below the
    axis (level -27) exactly when [i] is even and in the lane above it
    exactly when [i] is odd.  Above the axis the level is the near one (30)
    when ceil(i / 2), that is (i + 1) / 2, is odd and the far one (70) when
    it is even; below the axis the stagger, which shows in the bar's
    height level (-45 or -85), follows the parity of floor(i / 2).  Over
    the positions the levels run -27, 30, -27, 70 and the height levels
    -45, -85, -85, -45, and both repeat every four positions. *)
Theorem C1_alternating_lanes (settings : VisualSettings) (lo hi : option JSDate)
  (gWidth gHeight : Q) (timelineData : list TimelineData) :
  List.length (renderLine settings lo hi gWidth gHeight timelineData)
  = List.length timelineData
  /\ (forall i d, nth_error timelineData i = Some d ->
        exists ln,
          nth_error (renderLine settings lo hi gWidth gHeight timelineData) i = Some ln
          /\ line_y ln
             = yScale gHeight
                 (if Nat.even i then -27 else if Nat.odd ((i + 1) / 2) then 30 else 70)
          /\ line_height ln
             = (gHeight
                - yScale gHeight
                    (if Nat.even (if Nat.even i then i / 2 else (i + 1) / 2)%nat
                     then -45 else -85))%Q
          /\ line_y ln = yScale gHeight (nth (i mod 4) [-27; 30; -27; 70] 0)
          /\ line_height ln
             = (gHeight - yScale gHeight (nth (i mod 4) [-45; -85; -85; -45]%Z 0%Z))%Q)
  /\ (forall i : nat,
        (renderLine_y_level i = -27 <-> Nat.even i = true)
        /\ (renderLine_y_level i = 30 \/ renderLine_y_level i = 70 <-> Nat.odd i = true)
        /\ renderLine_y_level i = nth (i mod 4) [-27; 30; -27; 70] 0
        /\ renderLine_height_level i = nth (i mod 4) [-45; -85; -85; -45] 0
        /\ renderLine_y_level (i + 4) = renderLine_y_level i
        /\ renderLine_height_level (i + 4) = renderLine_height_level i).
Proof.
  split; [ | split ].
  - unfold renderLine, indexed. rewrite length_map, length_combine, length_seq.
    apply Nat.min_id.
  - intros i d Hd. unfold renderLine, indexed.
    rewrite nth_error_map, (nth_error_indexed_at timelineData 0 i d Hd).
    cbn [option_map Nat.add]. eexists. split; [ reflexivity | ].
    cbn [line_y line_height]. unfold renderLine_y, renderLine_height.
    split; [ rewrite renderLine_y_level_parity; reflexivity | ].
    split; [ rewrite renderLine_height_level_parity; reflexivity | ].
    split; [ rewrite renderLine_y_level_cycle; reflexivity | ].
    rewrite renderLine_height_level_cycle. reflexivity.
  - intros i.
    assert (Hy := renderLine_y_level_parity i).
    assert (P1 : renderLine_y_level (i + 4) = renderLine_y_level i).
    { rewrite (renderLine_y_level_cycle (i + 4)), add4_mod4. symmetry.
      apply renderLine_y_level_cycle. }
    assert (P2 : renderLine_height_level (i + 4) = renderLine_height_level i).
    { rewrite (renderLine_height_level_cycle (i + 4)), add4_mod4. symmetry.
      apply renderLine_height_level_cycle. }
    split; [ | split; [ | split; [ apply renderLine_y_level_cycle | ] ] ].
    + rewrite Hy. unfold Nat.odd. destruct (Nat.even i); [ tauto | ].
      destruct (negb (Nat.even ((i + 1) / 2))); split; intros H; discriminate.
    + rewrite Hy. unfold Nat.odd. destruct (Nat.even i); cbn [negb].
      * split; [ intros [H | H]; discriminate | discriminate ].
      * destruct (negb (Nat.even ((i + 1) / 2))); split; auto.
    + split; [ apply renderLine_height_level_cycle | split; assumption ].
Qed.

End Layout.

(** ** The year window and the axis domain *)

Section Window.

Context {cells : NumberCells} {host : Host}.

Lemma map_if_filter_pure (test : TimelineData -> result bool)
  (p : TimelineData -> bool) (xs : list TimelineData) :
  (forall d, In d xs -> test d = Ok (p d)) ->
  map_if_filter test xs = Ok (filter p xs).
Proof.
  intros H. unfold map_if_filter.
  rewrite (mapM_pure _ (fun d => if p d then Some d else None)).
  - simpl. rewrite filter_defined_map_if. reflexivity.
  - intros d Hd. rewrite (H d Hd). reflexivity.
Qed.

Lemma year_ge_non_null (lo : JSDate) (d : TimelineData) :
  Date d <> None -> year_ge lo d = Ok (num_ge (record_year d) (getFullYear lo)).
Proof.
  unfold year_ge, record_year. destruct (Date d); [ reflexivity | congruence ].
Qed.

Lemma year_le_non_null (hi : JSDate) (d : TimelineData) :
  Date d <> None -> year_le hi d = Ok (num_le (record_year d) (getFullYear hi)).
Proof.
  unfold year_le, record_year. destruct (Date d); [ reflexivity | congruence ].
Qed.

Lemma year_ge_null (lo : JSDate) (d : TimelineData) :
  Date d = None -> year_ge lo d = Throw TypeError.
Proof.
  unfold year_ge. intros ->. reflexivity.
Qed.

Lemma non_empty_length {A : Type} (xs : list A) :
  xs <> [] -> (0 <? List.length xs)%nat = true.
Proof.
  destruct xs; [ congruence | reflexivity ].
Qed.

(** The window filter on records that all carry a Date object. *)
Lemma window_filter_non_null (settings : VisualSettings) (now : Z)
  (timelineData : list TimelineData) :
  timelineData <> [] ->
  Forall (fun d => Date d <> None) timelineData ->
  window_filter settings now timelineData =
  Ok {| w_minDate := Some (window_start settings now);
        w_maxDate := Some (window_end settings now);
        timelineLocalData := filter (in_year_window settings now) timelineData |}.
Proof.
  intros Hne Hall. unfold window_filter. rewrite (non_empty_length _ Hne).
  cbv zeta. rewrite Forall_forall in Hall.
  rewrite (map_if_filter_pure _
             (fun d => num_ge (record_year d) (getFullYear (window_start settings now)))).
  2:{ intros d Hd. apply year_ge_non_null. apply Hall. exact Hd. }
  cbn [bind].
  rewrite (map_if_filter_pure _
             (fun d => num_le (record_year d) (getFullYear (window_end settings now)))).
  2:{ intros d Hd. apply filter_In in Hd. apply year_le_non_null. apply Hall. apply Hd. }
  cbn [bind]. rewrite filter_filter. unfold in_year_window. reflexivity.
Qed.

(** A record with no Date object makes the first pass of the filter
    throw, wherever it stands. *)
Lemma window_filter_null_date (settings : VisualSettings) (now : Z)
  (timelineData : list TimelineData) :
  (exists d, In d timelineData /\ Date d = None) ->
  window_filter settings now timelineData = Throw TypeError.
Proof.
  intros (d & Hin & Hnull).
  assert (Hsplit : exists pre x post,
             timelineData = pre ++ x :: post /\ Date x = None
             /\ Forall (fun y => Date y <> None) pre).
  { clear now settings. induction timelineData as [| a rest IH]; [ destruct Hin | ].
    destruct (Date a) eqn:Ea.
    - destruct Hin as [-> | Hin]; [ congruence | ].
      destruct (IH Hin) as (pre & x & post & -> & Hx & Hpre).
      exists (a :: pre), x, post. repeat split; auto.
      constructor; [ congruence | exact Hpre ].
    - exists [], a, rest. repeat split; auto. }
  destruct Hsplit as (pre & x & post & -> & Hx & Hpre).
  unfold window_filter.
  rewrite non_empty_length by (destruct pre; discriminate).
  cbv zeta. unfold map_if_filter at 1.
  rewrite (mapM_throws _
             (fun y => if num_ge (record_year y) (getFullYear (window_start settings now))
                       then Some y else None) pre post x TypeError).
  - reflexivity.
  - intros y Hy. rewrite Forall_forall in Hpre.
    rewrite year_ge_non_null by (apply Hpre; exact Hy). reflexivity.
  - rewrite year_ge_null by exact Hx. reflexivity.
Qed.

(** *** The extent of the data *)







Lemma Date_ofValue_in_range (t : Z) :
  Z.abs t <= maxTime -> Date_ofValue (Fin t) = ValidDate t.
Proof.
  intros H. unfold Date_ofValue, TimeClip.
  destruct (Z.ltb_spec maxTime (Z.abs t)); [ lia | reflexivity ].
Qed.



Lemma valid_date_non_null (timelineData : list TimelineData) :
  Forall (fun d => is_valid_date (Date d)) timelineData ->
  Forall (fun d => Date d <> None) timelineData.
Proof.
  apply Forall_impl. intros d (t & E & _). congruence.
Qed.





End Window.

(** ** The row converter *)

Section Converter.

Context {cells : NumberCells} {host : Host}.

Lemma index_of_scan_column (ti : Z) (col : DataViewMetadataColumn) (ix : RoleIndexes)
  (r : Role) :
  index_of (scan_column ti col ix) r = if selects r col then ti else index_of ix r.
Proof.
  unfold scan_column, selects, selected_role, chain. cbn [find role_name].
  destruct (hasOwnProperty (roles col) "Company"); [ destruct r; reflexivity | ].
  destruct (hasOwnProperty (roles col) "Type"); [ destruct r; reflexivity | ].
  destruct (hasOwnProperty (roles col) "Description"); [ destruct r; reflexivity | ].
  destruct (hasOwnProperty (roles col) "Date"); [ destruct r; reflexivity | ].
  destruct (hasOwnProperty (roles col) "DocumentLink"); [ destruct r; reflexivity | ].
  destruct (hasOwnProperty (roles col) "HeaderImage"); [ destruct r; reflexivity | ].
  destruct (hasOwnProperty (roles col) "FooterImage"); destruct r; reflexivity.
Qed.

(** The column loop from column [ti] on: the index of a role is either
    left as it was, when no column takes the role's branch, or that of the
    last column that does. *)
Lemma scan_columns_last (cols : list DataViewMetadataColumn) (ti : Z) (ix : RoleIndexes)
  (r : Role) :
  (index_of (scan_columns cols ti ix) r = index_of ix r
   /\ forall j col, nth_error cols j = Some col -> selects r col = false)
  \/ (exists j col,
        index_of (scan_columns cols ti ix) r = ti + Z.of_nat j
        /\ nth_error cols j = Some col /\ selects r col = true
        /\ forall k col', (j < k)%nat -> nth_error cols k = Some col' ->
                          selects r col' = false).
Proof.
  revert ti ix. induction cols as [| c rest IH]; intros ti ix; cbn [scan_columns].
  - left. split; [ reflexivity | ]. intros [| j] col H; discriminate.
  - destruct (IH (ti + 1) (scan_column ti c ix)) as [[Hix Hnone] | (j & col & Hix & Hj & Hsel & Hlast)].
    + rewrite index_of_scan_column in Hix. destruct (selects r c) eqn:Hc.
      * right. exists O, c. split; [ rewrite Hix; lia | ].
        split; [ reflexivity | ]. split; [ exact Hc | ].
        intros [| k] col' Hk Hnth; [ lia | ]. apply (Hnone k). exact Hnth.
      * left. split; [ exact Hix | ].
        intros [| j] col Hnth; [ injection Hnth as <-; exact Hc | ].
        apply (Hnone j). exact Hnth.
    + right. exists (S j), col. split; [ rewrite Hix; lia | ].
      split; [ exact Hj | ]. split; [ exact Hsel | ].
      intros [| k] col' Hk Hnth; [ lia | ]. apply (Hlast k); [ lia | exact Hnth ].
Qed.

(** C6.  After the single left-to-right scan of the columns, the index
    recorded for a role is that of the last column whose branch of the
    conditional chain was the role's (-1 when there is none): every column
    that takes the branch stands at or before the recorded index, so of
    several columns carrying the role the last one wins, not the first. *)
Theorem C6_last_matching_column_wins (dataView : DataView) (r : Role) :
  let cols := columns (table dataView) in
  let ix := scan_columns cols 0 no_indexes in
  ((index_of ix r = -1
    /\ forall j col, nth_error cols j = Some col -> selects r col = false)
   \/ (exists j col,
         index_of ix r = Z.of_nat j
         /\ nth_error cols j = Some col /\ selects r col = true
         /\ forall k col', (j < k)%nat -> nth_error cols k = Some col' ->
                           selects r col' = false))
  /\ (forall j col, nth_error cols j = Some col -> selects r col = true ->
                    Z.of_nat j <= index_of ix r).
Proof.
  intros cols ix.
  assert (H := scan_columns_last cols 0 no_indexes r). fold ix in H.
  assert (H0 : index_of no_indexes r = -1) by (destruct r; reflexivity).
  rewrite H0 in H. split; [ exact H | ].
  intros j col Hj Hsel.
  destruct H as [[_ Hnone] | (j' & col' & Hix & Hj' & _ & Hlast)].
  - rewrite (Hnone j col Hj) in Hsel. discriminate.
  - rewrite Hix. destruct (Nat.lt_ge_cases j' j) as [Hlt | Hge]; [ | lia ].
    rewrite (Hlast j col Hlt Hj) in Hsel. discriminate.
Qed.

Lemma row_get_absent (row : list PrimitiveValue) : row_get row (-1) = PVundefined.
Proof. reflexivity. Qed.

Lemma truthy_has_toString (v : PrimitiveValue) : truthy v = true -> has_toString v = true.
Proof. destruct v; simpl; congruence. Qed.

Lemma has_toString_Ok (v : PrimitiveValue) :
  has_toString v = true -> exists s, toString v = Ok s.
Proof.
  destruct v; simpl; intros H; try discriminate; eexists; reflexivity.
Qed.

Lemma toString_or_null_slot (v : PrimitiveValue) :
  exists field, toString_or_null v = Ok field /\ text_slot v field.
Proof.
  unfold toString_or_null, text_slot. destruct (truthy v) eqn:Hv.
  - destruct (has_toString_Ok v (truthy_has_toString v Hv)) as (s & Hs).
    exists (Some s). rewrite Hs. split; [ reflexivity | exists s; auto ].
  - exists None. auto.
Qed.

(** A row whose Company cell has a [toString] converts, and each field of
    the record follows from its cell. *)
Lemma convert_row_ok (tableView : DataViewTable) (ix : RoleIndexes) (i : nat)
  (row : list PrimitiveValue) :
  has_toString (cell_of ix row RoleCompany) = true ->
  exists dp, convert_row tableView ix i row = Ok dp
             /\ converted_from tableView ix i row dp.
Proof.
  intros Hc. unfold convert_row, converted_from, cell_of in *. cbn [index_of] in *.
  destruct (has_toString_Ok _ Hc) as (company & ->). cbn [bind].
  set (vt := row_get row (typeIndex ix)).
  assert (Ht : exists ty, (if truthy vt then toString vt else Ok ""%string) = Ok ty
                          /\ (if truthy vt then toString vt = Ok ty else ty = ""%string)).
  { destruct (truthy vt) eqn:Hvt.
    - destruct (has_toString_Ok vt (truthy_has_toString vt Hvt)) as (s & Hs).
      exists s. auto.
    - exists ""%string. auto. }
  destruct Ht as (ty & -> & Hty). cbn [bind].
  destruct (toString_or_null_slot (row_get row (descIndex ix))) as (desc & -> & Hdesc).
  cbn [bind].
  set (vd := row_get row (dateIndex ix)).
  assert (Hd : exists date,
             (if truthy vd
              then bind (toString vd) (fun s => Ok (Some (Date_ofValue (Date_parse s))))
              else Ok None) = Ok date /\ date_slot vd date).
  { unfold date_slot. destruct (truthy vd) eqn:Hvd.
    - destruct (has_toString_Ok vd (truthy_has_toString vd Hvd)) as (s & Hs).
      exists (Some (Date_ofValue (Date_parse s))). rewrite Hs.
      split; [ reflexivity | exists s; auto ].
    - exists None. auto. }
  destruct Hd as (date & -> & Hdate). cbn [bind].
  destruct (toString_or_null_slot (row_get row (linkIndex ix))) as (link & -> & Hlink).
  cbn [bind].
  destruct (toString_or_null_slot (row_get row (headerImageIndex ix))) as (himg & -> & Hh).
  cbn [bind].
  destruct (toString_or_null_slot (row_get row (footerImageIndex ix))) as (fimg & -> & Hf).
  cbn [bind].
  eexists. split; [ reflexivity | ].
  cbn [Company Type_ Description Date DocumentLink HeaderImage FooterImage selectionId].
  repeat split; assumption.
Qed.

(** A row whose Company cell is [null] or [undefined] (as under an absent
    Company column) throws. *)
Lemma convert_row_throws (tableView : DataViewTable) (ix : RoleIndexes) (i : nat)
  (row : list PrimitiveValue) :
  has_toString (cell_of ix row RoleCompany) = false ->
  convert_row tableView ix i row = Throw TypeError.
Proof.
  unfold convert_row, cell_of. cbn [index_of].
  destruct (row_get row (companyIndex ix)); simpl; intros H;
    try discriminate; reflexivity.
Qed.

Lemma convert_rows_ok (tableView : DataViewTable) (ix : RoleIndexes)
  (rs : list (list PrimitiveValue)) (i : nat) :
  Forall (fun row => has_toString (cell_of ix row RoleCompany) = true) rs ->
  exists dps,
    convert_rows tableView ix i rs = Ok dps
    /\ List.length dps = List.length rs
    /\ forall k row dp, nth_error rs k = Some row -> nth_error dps k = Some dp ->
                        converted_from tableView ix (i + k) row dp.
Proof.
  intros H. revert i. induction H as [| row rest Hrow _ IH]; intros i.
  - exists []. split; [ reflexivity | ]. split; [ reflexivity | ].
    intros [| k] row dp Hk; discriminate.
  - destruct (convert_row_ok tableView ix i row Hrow) as (dp & Hdp & Hfrom).
    destruct (IH (S i)) as (dps & Hdps & Hlen & Hall).
    exists (dp :: dps). cbn [convert_rows]. rewrite Hdp. cbn [bind].
    rewrite Hdps. cbn [bind]. split; [ reflexivity | ].
    split; [ cbn [List.length]; rewrite Hlen; reflexivity | ].
    intros [| k] row' dp' Hr Hd.
    + injection Hr as <-. injection Hd as <-. rewrite Nat.add_0_r. exact Hfrom.
    + replace (i + S k)%nat with (S i + k)%nat by lia. apply (Hall k); assumption.
Qed.

(** C5, as the code has it.  When every row has a Company cell that is
    neither [null] nor [undefined], the converter returns one record per
    row, in row order.  In each record Company is the text of its cell,
    falsy or not: an empty string stays the empty string and [false] reads
    "false".  Each of the six other fields is [null] (the empty string for
    Type) when its role column is absent or its cell is falsy, and the text
    of its cell otherwise.  A truthy date cell gives the Date object of its
    parsed text, which is an Invalid Date, not [null], when the text does
    not parse. *)
Theorem C5_rows_convert_with_null_slots (dataView : DataView) :
  let tableView := table dataView in
  let ix := scan_columns (columns tableView) 0 no_indexes in
  Forall (fun row => has_toString (cell_of ix row RoleCompany) = true) (rows tableView) ->
  (exists dps,
     CONVERTER dataView = Ok dps
     /\ List.length dps = List.length (rows tableView)
     /\ forall i row dp,
          nth_error (rows tableView) i = Some row -> nth_error dps i = Some dp ->
          converted_from tableView ix i row dp)
  /\ (forall r row, index_of ix r = -1 -> cell_of ix row r = PVundefined)
  /\ (forall s, Date_parse s = NaN -> Date_ofValue (Date_parse s) = InvalidDate)
  /\ (forall v, has_toString v = true ->
        exists s, toString v = Ok s
                  /\ (v = PVstring ""%string -> truthy v = false /\ s = ""%string)
                  /\ (v = PVboolean false -> truthy v = false /\ s = "false"%string)).
Proof.
  intros tableView ix H. split; [ | split; [ | split ] ].
  - destruct (convert_rows_ok tableView ix (rows tableView) 0 H) as (dps & Hc & Hlen & Hall).
    exists dps. split; [ exact Hc | ]. split; [ exact Hlen | ].
    intros i row dp Hr Hd. apply (Hall i row dp Hr Hd).
  - intros r row Hr. unfold cell_of. rewrite Hr. reflexivity.
  - intros s ->. reflexivity.
  - intros v Hv. destruct v as [| | s | x | b | d]; try discriminate Hv;
      cbn [toString]; eexists; (split; [ reflexivity | ]);
      split; intros E; try discriminate E; injection E as ->; split; reflexivity.
Qed.

End Converter.

(** ** The axis *)

Section Axis.

Context {cells : NumberCells} {host : Host}.

Lemma Math_round_years (m : Z) :
  Math_round (((inject_Z m / 1000) / (60 * 60 * 24)) / (36525 # 100))%Q
  = (2 * m + 31557600000) / 63115200000.
Proof.
  set (rhs := (2 * m + 31557600000) / 63115200000).
  unfold Math_round, Qfloor, Qplus, Qdiv, Qmult, Qinv, inject_Z. cbn.
  subst rhs. Z.div_mod_to_equations. lia.
Qed.

Lemma Math_round_abs_days (m : Z) :
  Math_round ((Qabs (inject_Z m) / inject_Z msPerDay) / (36525 # 100))%Q
  = (2 * Z.abs m + 31557600000) / 63115200000.
Proof.
  set (rhs := (2 * Z.abs m + 31557600000) / 63115200000).
  unfold Math_round, Qfloor, Qplus, Qdiv, Qmult, Qinv, inject_Z, Qabs, msPerDay. cbn.
  subst rhs. Z.div_mod_to_equations. lia.
Qed.

(** [diff_years] in integer arithmetic. *)
Lemma diff_years_dates_valid (t2 t1 : Z) :
  diff_years_dates (ValidDate t2) (ValidDate t1)
  = Fin (Z.abs ((2 * (t2 - t1) + 31557600000) / 63115200000)).
Proof.
  unfold diff_years_dates. cbn [getTime]. cbv zeta.
  rewrite Math_round_years. reflexivity.
Qed.

Lemma rounded_year_span_valid (t0 t1 : Z) :
  rounded_year_span (ValidDate t0) (ValidDate t1)
  = Fin ((2 * Z.abs (t1 - t0) + 31557600000) / 63115200000).
Proof.
  unfold rounded_year_span. cbn [getTime]. cbv zeta.
  rewrite Math_round_abs_days. reflexivity.
Qed.

(** On a difference of whole days no tie arises, and rounding the signed
    difference before taking the absolute value, as [diff_years] does,
    gives the rounded absolute difference. *)
Lemma whole_days_in_years (k : Z) :
  (2 * (msPerDay * k) + 31557600000) / 63115200000 = (8 * k + 1461) / 2922.
Proof.
  unfold msPerDay.
  replace (2 * (86400000 * k) + 31557600000) with ((8 * k + 1461) * 21600000) by lia.
  change 63115200000 with (2922 * 21600000).
  apply Z.div_mul_cancel_r; lia.
Qed.

Lemma round_whole_days (k : Z) :
  Z.abs ((2 * (msPerDay * k) + 31557600000) / 63115200000)
  = (2 * Z.abs (msPerDay * k) + 31557600000) / 63115200000.
Proof.
  replace (Z.abs (msPerDay * k)) with (msPerDay * Z.abs k) by (unfold msPerDay; lia).
  rewrite !whole_days_in_years. Z.div_mod_to_equations. lia.
Qed.

Lemma MakeDay_january_1 (y : Z) : MakeDay y 0 1 = DayFromYear y.
Proof.
  unfold MakeDay. change (0 / 12) with 0. change (0 mod 12) with 0.
  cbv zeta. cbn [DaysBeforeMonth]. replace (y + 0) with y by lia. lia.
Qed.

(** [new Date(year, 0, 1)] is an Invalid Date or local midnight at the
    start of some calendar year. *)
Lemma january_1_shape (a : number) :
  january_1 a = InvalidDate \/ exists y, january_1 a = new_year y.
Proof.
  unfold january_1, Date_ofYMD, new_year. destruct a as [y | | |]; auto.
  rewrite MakeDay_january_1. unfold MakeDate. rewrite Z.add_0_r.
  set (yr := if ((0 <=? y) && (y <=? 99))%bool then 1900 + y else y).
  unfold Date_ofValue.
  destruct (TimeClip (UTC (DayFromYear yr * msPerDay))) as [t |] eqn:E; auto.
  right. exists yr. unfold TimeClip in E.
  destruct (maxTime <? Z.abs (UTC (DayFromYear yr * msPerDay))); [ discriminate | ].
  injection E as <-. unfold TimeFromYear. rewrite (Z.mul_comm msPerDay). reflexivity.
Qed.

Lemma new_year_difference (y1 y2 : Z) :
  UTC (TimeFromYear y1) - UTC (TimeFromYear y2)
  = msPerDay * (DayFromYear y1 - DayFromYear y2).
Proof.
  unfold UTC, TimeFromYear. lia.
Qed.

Lemma diff_years_january_1 (a b : number) :
  diff_years_dates (january_1 a) (january_1 b)
  = rounded_year_span (january_1 a) (january_1 b).
Proof.
  destruct (january_1_shape a) as [-> | (y1 & ->)];
    destruct (january_1_shape b) as [-> | (y2 & ->)]; try reflexivity.
  unfold new_year. rewrite diff_years_dates_valid, rounded_year_span_valid.
  rewrite new_year_difference, (new_year_difference y2 y1).
  rewrite round_whole_days. f_equal. f_equal. f_equal. f_equal. lia.
Qed.

Lemma ticks_new_years (y1 y2 : Z) :
  renderXandYAxis_ticks (Some (new_year y1)) (Some (new_year y2))
  = Ok (if Z.abs ((2 * (msPerDay * (DayFromYear y1 - DayFromYear y2)) + 31557600000)
                  / 63115200000) <=? 1
        then MonthlyTicks else YearlyTicks).
Proof.
  unfold renderXandYAxis_ticks, diff_years, new_year. cbn [bind].
  rewrite diff_years_dates_valid, new_year_difference. reflexivity.
Qed.

(** The domain [update] resolves is made of two [new Date(year, 0, 1)]. *)
Lemma update_window_domain (settings : VisualSettings) (now : Z)
  (timelineData : list TimelineData) (r : Resolved) :
  update_window settings now timelineData = Ok r ->
  exists a b, minDate r = Some (january_1 a) /\ maxDate r = Some (january_1 b).
Proof.
  unfold update_window. intros H. apply bind_Ok_inv in H.
  destruct H as (w & Hw & H). injection H as <-.
  unfold resolve_domain.
  destruct (0 <? List.length (timelineLocalData w))%nat eqn:Hlen.
  - cbn [minDate maxDate]. unfold window_filter in Hw.
    destruct (0 <? List.length timelineData)%nat.
    + cbv zeta in Hw. apply bind_Ok_inv in Hw. destruct Hw as (l1 & _ & Hw).
      apply bind_Ok_inv in Hw. destruct Hw as (l2 & _ & Hw). injection Hw as <-.
      cbn [w_minDate w_maxDate]. unfold window_start, window_end, january_1.
      eexists. eexists. split; reflexivity.
    + injection Hw as <-. discriminate.
  - cbv zeta. cbn [minDate maxDate]. unfold january_1.
    eexists. eexists. split; reflexivity.
Qed.

(** C8.  On every domain [update] resolves, two dates built as
    [new Date(year, 0, 1)], the axis takes monthly ticks exactly when
    round(|maxDate - minDate| in days / 365.25) is at most 1, and yearly
    ticks otherwise.  From the start of a calendar year to the start of the
    next the ticks are monthly; over two calendar years or more they are
    yearly. *)
Theorem C8_tick_granularity :
  (forall a b : number,
     renderXandYAxis_ticks (Some (january_1 a)) (Some (january_1 b))
     = Ok (if num_le (rounded_year_span (january_1 a) (january_1 b)) (Fin 1)
           then MonthlyTicks else YearlyTicks))
  /\ (forall settings now timelineData r,
        update_window settings now timelineData = Ok r ->
        exists a b, minDate r = Some (january_1 a) /\ maxDate r = Some (january_1 b))
  /\ (forall y : Z,
        renderXandYAxis_ticks (Some (new_year y)) (Some (new_year (y + 1)))
        = Ok MonthlyTicks)
  /\ (forall y n : Z, 2 <= n ->
        renderXandYAxis_ticks (Some (new_year y)) (Some (new_year (y + n)))
        = Ok YearlyTicks).
Proof.
  split; [ | split; [ | split ] ].
  - intros a b. unfold renderXandYAxis_ticks, diff_years. cbn [bind].
    rewrite diff_years_january_1. reflexivity.
  - apply update_window_domain.
  - intros y. rewrite ticks_new_years.
    pose proof (DayFromYear_step y) as Hs. pose proof (DaysInYear_range y) as Hr.
    assert (E : Z.abs ((2 * (msPerDay * (DayFromYear y - DayFromYear (y + 1)))
                        + 31557600000) / 63115200000) = 1).
    { rewrite whole_days_in_years. Z.div_mod_to_equations. lia. }
    rewrite E. reflexivity.
  - intros y n Hn. rewrite ticks_new_years.
    pose proof (DayFromYear_lt y (y + n) ltac:(lia)) as Hs.
    assert (E : 2 <= Z.abs ((2 * (msPerDay * (DayFromYear y - DayFromYear (y + n)))
                             + 31557600000) / 63115200000)).
    { rewrite whole_days_in_years. Z.div_mod_to_equations. lia. }
    destruct (Z.leb_spec (Z.abs ((2 * (msPerDay * (DayFromYear y - DayFromYear (y + n)))
                                  + 31557600000) / 63115200000)) 1); [ lia | reflexivity ].
Qed.

End Axis.

(** ** The render steps *)

Section Render.

Context {cells : NumberCells} {host : Host}.

(** What a successful [map(...).filter(e => e)] pass returns. *)
Lemma map_if_filter_Ok (test : TimelineData -> result bool)
  (xs ys : list TimelineData) :
  map_if_filter test xs = Ok ys ->
  ys = filter (fun d => match test d with Ok b => b | Throw _ => false end) xs
  /\ forall d, In d xs -> is_ok (test d) = true.
Proof.
  unfold map_if_filter. revert ys. induction xs as [| x rest IH]; intros ys H.
  - injection H as <-. split; [ reflexivity | intros d [] ].
  - cbn [mapM] in H. destruct (test x) as [b | e] eqn:Hx; [ | discriminate ].
    cbn [bind] in H.
    destruct (mapM (fun d => bind (test d) (fun b0 => Ok (if b0 then Some d else None))) rest)
      as [zs | e] eqn:Hrest; [ | discriminate ].
    cbn [bind] in H. injection H as <-.
    destruct (IH (filter_defined zs) eq_refl) as (Hys & Hok).
    split.
    + cbn [filter]. rewrite Hx. destruct b; cbn [filter_defined]; rewrite Hys; reflexivity.
    + intros d [<- | Hd]; [ rewrite Hx; reflexivity | apply Hok; exact Hd ].
Qed.




Lemma indexed_length {A : Type} (xs : list A) : List.length (indexed xs) = List.length xs.
Proof.
  unfold indexed. rewrite length_combine, length_seq. apply Nat.min_id.
Qed.

Lemma render_shown (settings : VisualSettings) (width height : Q) (now : Z)
  (converted : list TimelineData) (out : Rendered) :
  render settings width height now converted = Ok out ->
  exists r,
    update_window settings now (slice_0_100 converted) = Ok r
    /\ shown out = active r
    /\ domain out = (minDate r, maxDate r)
    /\ List.length (lines out) = List.length (shown out)
    /\ List.length (arrows out) = List.length (shown out)
    /\ List.length (boxes out) = List.length (shown out).
Proof.
  unfold render. cbv zeta. intros H.
  apply bind_Ok_inv in H. destruct H as (r & Hr & H).
  apply bind_Ok_inv in H. destruct H as (hf & _ & H).
  apply bind_Ok_inv in H. destruct H as (tk & _ & H).
  injection H as <-. exists r. cbn [shown domain lines arrows boxes].
  unfold renderLine, renderArrow, renderBox. rewrite !length_map, !indexed_length.
  repeat split; auto.
Qed.

Lemma window_filter_empty (settings : VisualSettings) (now : Z) :
  update_window settings now [] =
  Ok {| active := []; minDate := Some InvalidDate; maxDate := Some InvalidDate |}.
Proof. reflexivity. Qed.

(** C10.  On an empty record sequence with the layout "header" or
    "footer", [renderHeaderAndFooter] reads a field of the missing first
    record and throws, and so does the whole render pass.  On a non-empty
    sequence the image comes from the first record alone: its source is
    that record's image when [validDataUrl] accepts it and the empty string
    otherwise. *)
Theorem C10_header_footer_reads_first_record :
  (forall settings,
     (is_layout settings "header" || is_layout settings "footer")%bool = true ->
     renderHeaderAndFooter settings [] = Throw TypeError
     /\ (forall width height now,
           render settings width height now [] = Throw TypeError)
     /\ (forall width height now dataView,
           CONVERTER dataView = Ok [] ->
           update settings width height now dataView = Throw TypeError))
  /\ (forall settings d rest,
        renderHeaderAndFooter settings (d :: rest)
        = Ok (if is_layout settings "header"
              then HeaderImg (if validDataUrl (HeaderImage d)
                              then HeaderImage d else Some ""%string)
              else if is_layout settings "footer"
              then FooterImg (if validDataUrl (FooterImage d)
                              then FooterImage d else Some ""%string)
              else NoImage)).
Proof.
  split.
  - intros settings Hlay.
    assert (H0 : renderHeaderAndFooter settings [] = Throw TypeError).
    { unfold renderHeaderAndFooter. cbn [hd_error].
      destruct (is_layout settings "header"); [ reflexivity | ].
      destruct (is_layout settings "footer"); [ reflexivity | discriminate ]. }
    assert (H1 : forall width height now,
               render settings width height now [] = Throw TypeError).
    { intros. unfold render, slice_0_100. cbn [firstn]. cbv zeta.
      rewrite window_filter_empty. cbn [bind active]. rewrite H0. reflexivity. }
    split; [ exact H0 | ]. split; [ exact H1 | ].
    intros width height now dataView Hc. unfold update. rewrite Hc. cbn [bind]. apply H1.
  - intros settings d rest. unfold renderHeaderAndFooter, image_src. cbn [hd_error].
    destruct (is_layout settings "header"); [ reflexivity | ].
    destruct (is_layout settings "footer"); reflexivity.
Qed.

End Render.

(** ** More on the row converter *)

Section ConverterResults.

Context {cells : NumberCells} {host : Host}.

Lemma convert_rows_throws_iff (tableView : DataViewTable) (ix : RoleIndexes)
  (rs : list (list PrimitiveValue)) (i : nat) :
  convert_rows tableView ix i rs = Throw TypeError
  <-> Exists (fun row => has_toString (cell_of ix row RoleCompany) = false) rs.
Proof.
  revert i. induction rs as [| row rest IH]; intros i; cbn [convert_rows].
  - split; [ discriminate | intros H; inversion H ].
  - destruct (has_toString (cell_of ix row RoleCompany)) eqn:Hc.
    + destruct (convert_row_ok tableView ix i row Hc) as (dp & -> & _). cbn [bind].
      specialize (IH (S i)).
      destruct (convert_rows tableView ix (S i) rest) as [dps | e]; cbn [bind].
      * split; [ discriminate | ]. intros H. inversion H as [? ? H1 | ? ? H1]; subst.
        -- congruence.
        -- apply IH in H1. discriminate.
      * destruct e. split; [ intros _ | reflexivity ].
        apply Exists_cons_tl. apply IH. reflexivity.
    + rewrite convert_row_throws by exact Hc. cbn [bind].
      split; [ intros _; apply Exists_cons_hd; exact Hc | reflexivity ].
Qed.

Lemma convert_rows_Ok_inv (tableView : DataViewTable) (ix : RoleIndexes)
  (rs : list (list PrimitiveValue)) (i : nat) (dps : list TimelineData) :
  convert_rows tableView ix i rs = Ok dps ->
  Forall (fun row => has_toString (cell_of ix row RoleCompany) = true) rs.
Proof.
  intros H. apply Forall_forall. intros row Hrow.
  destruct (has_toString (cell_of ix row RoleCompany)) eqn:Hc; [ reflexivity | ].
  assert (E : Exists (fun row => has_toString (cell_of ix row RoleCompany) = false) rs).
  { apply Exists_exists. exists row. auto. }
  apply (convert_rows_throws_iff tableView ix rs i) in E. congruence.
Qed.

Lemma CONVERTER_Ok_shape (dataView : DataView) (dps : list TimelineData) :
  CONVERTER dataView = Ok dps ->
  List.length dps = List.length (rows (table dataView))
  /\ forall i dp, nth_error dps i = Some dp ->
       exists row, nth_error (rows (table dataView)) i = Some row
         /\ converted_from (table dataView)
              (scan_columns (columns (table dataView)) 0 no_indexes) i row dp.
Proof.
  unfold CONVERTER. cbv zeta. intros H.
  pose proof (convert_rows_Ok_inv _ _ _ _ _ H) as Hall.
  destruct (convert_rows_ok (table dataView)
              (scan_columns (columns (table dataView)) 0 no_indexes)
              (rows (table dataView)) 0 Hall) as (dps' & Hc & Hlen & Hfrom).
  rewrite H in Hc. injection Hc as <-.
  split; [ exact Hlen | ]. intros i dp Hdp.
  assert (Hi : (i < List.length (rows (table dataView)))%nat).
  { rewrite <- Hlen. apply nth_error_Some. congruence. }
  destruct (nth_error (rows (table dataView)) i) as [row |] eqn:Hrow;
    [ | apply nth_error_None in Hrow; lia ].
  pose proof (Hfrom i row dp Hrow Hdp) as Hcf. cbn [Nat.add] in Hcf.
  exists row. split; [ reflexivity | exact Hcf ].
Qed.

(** X1.  Whenever the converter returns, it returns one record per row, in
    row order: record [i] is built from row [i] and carries the selection
    identifier the host issued for row [i]. *)
Theorem CONVERTER_one_record_per_row (dataView : DataView) (dps : list TimelineData) :
  CONVERTER dataView = Ok dps ->
  List.length dps = List.length (rows (table dataView))
  /\ forall i dp, nth_error dps i = Some dp ->
       selectionId dp = createSelectionId (table dataView) i
       /\ exists row, nth_error (rows (table dataView)) i = Some row
            /\ converted_from (table dataView)
                 (scan_columns (columns (table dataView)) 0 no_indexes) i row dp.
Proof.
  intros H. destruct (CONVERTER_Ok_shape dataView dps H) as (Hlen & Hshape).
  split; [ exact Hlen | ]. intros i dp Hdp.
  destruct (Hshape i dp Hdp) as (row & Hrow & Hcf).
  split; [ apply Hcf | exists row; auto ].
Qed.

(** X2.  The converter fails exactly when some row has no usable Company cell:
    the cell is [null] or [undefined], as it is in every row when no
    column carries the Company role.  A table without rows converts to
    the empty sequence. *)
Theorem CONVERTER_throws_iff_company_missing (dataView : DataView) :
  (CONVERTER dataView = Throw TypeError
   <-> Exists (fun row =>
                 has_toString
                   (cell_of (scan_columns (columns (table dataView)) 0 no_indexes)
                      row RoleCompany) = false)
         (rows (table dataView)))
  /\ (forall row,
        companyIndex (scan_columns (columns (table dataView)) 0 no_indexes) = -1 ->
        has_toString
          (cell_of (scan_columns (columns (table dataView)) 0 no_indexes)
             row RoleCompany) = false)
  /\ (rows (table dataView) = [] -> CONVERTER dataView = Ok []).
Proof.
  split; [ apply convert_rows_throws_iff | ]. split.
  - intros row H. unfold cell_of. cbn [index_of]. rewrite H. reflexivity.
  - intros H. unfold CONVERTER. rewrite H. reflexivity.
Qed.

(** X3.  Every recorded role index is -1 or the position of a column. *)
Theorem role_index_in_range (dataView : DataView) (r : Role) :
  index_of (scan_columns (columns (table dataView)) 0 no_indexes) r = -1
  \/ 0 <= index_of (scan_columns (columns (table dataView)) 0 no_indexes) r
          < Z.of_nat (List.length (columns (table dataView))).
Proof.
  destruct (scan_columns_last (columns (table dataView)) 0 no_indexes r)
    as [[Hix _] | (j & col & Hix & Hj & _)].
  - left. rewrite Hix. destruct r; reflexivity.
  - right. rewrite Hix.
    assert (j < List.length (columns (table dataView)))%nat
      by (apply nth_error_Some; congruence).
    lia.
Qed.

Lemma Date_ofValue_well_formed (v : number) :
  Date_ofValue v = InvalidDate
  \/ exists t, Date_ofValue v = ValidDate t /\ Z.abs t <= maxTime.
Proof.
  unfold Date_ofValue, TimeClip. destruct v as [t | | |]; auto.
  destruct (Z.ltb_spec maxTime (Z.abs t)); [ left; reflexivity | ].
  right. exists t. split; [ reflexivity | lia ].
Qed.

(** X4.  The date of a converted record is [null], an Invalid Date, or a Date
    whose time value lies within 8.64e15 ms of the epoch. *)
Theorem CONVERTER_dates_well_formed (dataView : DataView) (dps : list TimelineData)
  (dp : TimelineData) :
  CONVERTER dataView = Ok dps -> In dp dps ->
  Date dp = None \/ Date dp = Some InvalidDate \/ is_valid_date (Date dp).
Proof.
  intros H Hin. apply In_nth_error in Hin. destruct Hin as (i & Hi).
  destruct (CONVERTER_Ok_shape dataView dps H) as (_ & Hshape).
  destruct (Hshape i dp Hi) as (row & _ & Hcf).
  destruct Hcf as (_ & _ & _ & Hdate & _). unfold date_slot in Hdate.
  destruct (truthy (cell_of (scan_columns (columns (table dataView)) 0 no_indexes)
                      row RoleDate)).
  - destruct Hdate as (s & _ & ->).
    destruct (Date_ofValue_well_formed (Date_parse s)) as [-> | (t & -> & Ht)].
    + right. left. reflexivity.
    + right. right. exists t. auto.
  - left. exact Hdate.
Qed.

End ConverterResults.

(** ** More on the window and the render pass *)

Section WindowResults.

Context {cells : NumberCells} {host : Host}.

Lemma year_ge_Ok_non_null (lo : JSDate) (d : TimelineData) :
  is_ok (year_ge lo d) = true -> Date d <> None.
Proof.
  unfold year_ge. destruct (Date d); [ discriminate | intros H; discriminate H ].
Qed.

(** The filter returns only when every record carries a Date object. *)
Lemma window_filter_Ok_non_null (settings : VisualSettings) (now : Z)
  (timelineData : list TimelineData) (w : Windowed) :
  window_filter settings now timelineData = Ok w ->
  Forall (fun d => Date d <> None) timelineData.
Proof.
  unfold window_filter. destruct timelineData as [| d0 rest]; [ constructor | ].
  cbn [List.length Nat.ltb Nat.leb]. cbv zeta. intros H.
  apply bind_Ok_inv in H. destruct H as (l1 & H1 & _).
  apply map_if_filter_Ok in H1. destruct H1 as (_ & Hok).
  apply Forall_forall. intros d Hd. apply (year_ge_Ok_non_null _ _ (Hok d Hd)).
Qed.

Lemma filter_idempotent {A : Type} (p : A -> bool) (xs : list A) :
  filter p (filter p xs) = filter p xs.
Proof.
  induction xs as [| x rest IH]; simpl; [ reflexivity | ].
  destruct (p x) eqn:Hx; simpl; [ rewrite Hx, IH | ]; auto.
Qed.

Lemma filter_existsb {A : Type} (p : A -> bool) (xs : list A) :
  (0 <? List.length (filter p xs))%nat = existsb p xs.
Proof.
  induction xs as [| x rest IH]; simpl; [ reflexivity | ].
  destruct (p x); simpl; [ reflexivity | exact IH ].
Qed.

Lemma window_filter_Ok_eq (settings : VisualSettings) (now : Z)
  (timelineData : list TimelineData) (w : Windowed) :
  window_filter settings now timelineData = Ok w ->
  timelineData <> [] ->
  w = {| w_minDate := Some (window_start settings now);
         w_maxDate := Some (window_end settings now);
         timelineLocalData := filter (in_year_window settings now) timelineData |}.
Proof.
  intros H Hne. pose proof (window_filter_Ok_non_null _ _ _ _ H) as Hall.
  rewrite (window_filter_non_null _ _ _ Hne Hall) in H.
  apply Ok_inj in H. symmetry. exact H.
Qed.

Lemma window_filter_nil (settings : VisualSettings) (now : Z) :
  window_filter settings now [] =
  Ok {| w_minDate := None; w_maxDate := None; timelineLocalData := [] |}.
Proof. reflexivity. Qed.

(** X5.  Re-applying the window filter to what it kept changes nothing. *)
Theorem window_filter_idempotent (settings : VisualSettings) (now : Z)
  (timelineData : list TimelineData) (w : Windowed) :
  window_filter settings now timelineData = Ok w ->
  timelineLocalData w <> [] ->
  window_filter settings now (timelineLocalData w) = Ok w.
Proof.
  intros H Hne. pose proof (window_filter_Ok_non_null _ _ _ _ H) as Hall.
  destruct timelineData as [| d0 rest].
  { rewrite window_filter_nil in H. apply Ok_inj in H.
    rewrite <- H in Hne. cbn [timelineLocalData] in Hne. congruence. }
  apply window_filter_Ok_eq in H; [ | discriminate ].
  rewrite H at 2.
  assert (EX : timelineLocalData w = filter (in_year_window settings now) (d0 :: rest))
    by (rewrite H; reflexivity).
  rewrite EX in *.
  rewrite window_filter_non_null.
  - rewrite filter_idempotent. reflexivity.
  - exact Hne.
  - apply Forall_forall. intros d Hd. apply filter_In in Hd.
    rewrite Forall_forall in Hall. apply Hall. apply Hd.
Qed.

(** What [update] resolves whenever it gets past the filter: the records
    in the window with the window as domain when there are some, else all
    the records with their extent as domain. *)
Lemma update_window_Ok_shape (settings : VisualSettings) (now : Z)
  (timelineData : list TimelineData) (r : Resolved) :
  update_window settings now timelineData = Ok r ->
  Forall (fun d => Date d <> None) timelineData
  /\ r = if existsb (in_year_window settings now) timelineData
         then {| active := filter (in_year_window settings now) timelineData;
                 minDate := Some (window_start settings now);
                 maxDate := Some (window_end settings now) |}
         else {| active := timelineData;
                 minDate := Some (january_1 (getFullYear (earliest timelineData)));
                 maxDate := Some (january_1 (num_add (getFullYear (latest timelineData))
                                                     (Fin 1))) |}.
Proof.
  unfold update_window. intros H. apply bind_Ok_inv in H.
  destruct H as (w & Hw & H). injection H as <-.
  pose proof (window_filter_Ok_non_null _ _ _ _ Hw) as Hall.
  split; [ exact Hall | ].
  destruct timelineData as [| d0 rest].
  { rewrite window_filter_nil in Hw. apply Ok_inj in Hw. rewrite <- Hw. reflexivity. }
  apply window_filter_Ok_eq in Hw; [ | discriminate ].
  rewrite Hw. unfold resolve_domain. cbn [timelineLocalData w_minDate w_maxDate].
  rewrite filter_existsb. unfold january_1.
  destruct (existsb (in_year_window settings now) (d0 :: rest)); reflexivity.
Qed.

(** X6.  When some record lies in the window, the active set is the records
    in the window, in input order, and the domain is the window itself. *)
Theorem update_window_inside_window (settings : VisualSettings) (now : Z)
  (timelineData : list TimelineData) :
  Forall (fun d => Date d <> None) timelineData ->
  existsb (in_year_window settings now) timelineData = true ->
  update_window settings now timelineData =
  Ok {| active := filter (in_year_window settings now) timelineData;
        minDate := Some (window_start settings now);
        maxDate := Some (window_end settings now) |}.
Proof.
  intros Hall Hex. unfold update_window.
  rewrite window_filter_non_null; [ | destruct timelineData; discriminate | exact Hall ].
  cbn [bind]. unfold resolve_domain. cbn [timelineLocalData w_minDate w_maxDate].
  rewrite filter_existsb, Hex. reflexivity.
Qed.

Lemma no_null_dates (xs : list TimelineData) :
  existsb has_null_date xs = false -> Forall (fun d => Date d <> None) xs.
Proof.
  induction xs as [| x rest IH]; cbn [existsb]; intros H; constructor.
  - unfold has_null_date in H. destruct (Date x); [ discriminate | discriminate H ].
  - apply IH. destruct (has_null_date x); [ discriminate H | exact H ].
Qed.

Lemma some_null_date (xs : list TimelineData) :
  existsb has_null_date xs = true -> exists d, In d xs /\ Date d = None.
Proof.
  intros H. apply existsb_exists in H. destruct H as (d & Hd & Hn).
  exists d. split; [ exact Hd | ]. unfold has_null_date in Hn.
  destruct (Date d); [ discriminate | reflexivity ].
Qed.

Lemma render_throws_on_null_date (settings : VisualSettings) (width height : Q)
  (now : Z) (converted : list TimelineData) :
  existsb has_null_date (slice_0_100 converted) = true ->
  render settings width height now converted = Throw TypeError.
Proof.
  intros H. unfold render. cbv zeta. unfold update_window.
  rewrite window_filter_null_date by (apply some_null_date; exact H). reflexivity.
Qed.

Lemma renderHeaderAndFooter_Ok (settings : VisualSettings) (xs : list TimelineData) :
  xs <> [] \/ (is_layout settings "header" || is_layout settings "footer")%bool = false ->
  exists hf, renderHeaderAndFooter settings xs = Ok hf.
Proof.
  unfold renderHeaderAndFooter. intros [Hne | Hlay].
  - destruct xs as [| d rest]; [ congruence | ]. cbn [hd_error].
    destruct (is_layout settings "header"); [ eexists; reflexivity | ].
    destruct (is_layout settings "footer"); eexists; reflexivity.
  - apply Bool.orb_false_iff in Hlay. destruct Hlay as (-> & ->). eexists. reflexivity.
Qed.

Lemma render_Ok_when (settings : VisualSettings) (width height : Q) (now : Z)
  (converted : list TimelineData) :
  existsb has_null_date (slice_0_100 converted) = false ->
  slice_0_100 converted <> []
  \/ (is_layout settings "header" || is_layout settings "footer")%bool = false ->
  exists out, render settings width height now converted = Ok out.
Proof.
  intros Hnull Hcase. apply no_null_dates in Hnull.
  unfold render. cbv zeta.
  set (xs := slice_0_100 converted) in *.
  assert (Hr : exists r, update_window settings now xs = Ok r
                         /\ (xs <> [] -> active r <> [])
                         /\ (exists lo hi, minDate r = Some lo /\ maxDate r = Some hi)).
  { destruct xs as [| d0 rest] eqn:Exs.
    - eexists. split; [ apply window_filter_empty | ].
      split; [ congruence | ]. cbn [minDate maxDate]. eauto.
    - rewrite <- Exs in *. unfold update_window.
      rewrite window_filter_non_null by (auto; rewrite Exs; discriminate).
      cbn [bind]. eexists. split; [ reflexivity | ].
      unfold resolve_domain. cbn [timelineLocalData w_minDate w_maxDate].
      destruct (0 <? List.length (filter (in_year_window settings now) xs))%nat eqn:Hlen.
      + cbn [active minDate maxDate]. split; [ | eauto ].
        intros _ E. rewrite E in Hlen. discriminate.
      + cbn [active minDate maxDate]. split; [ auto | eauto ]. }
  destruct Hr as (r & -> & Hact & lo & hi & Hlo & Hhi). cbn [bind].
  destruct (renderHeaderAndFooter_Ok settings (active r)) as (hf & ->).
  { destruct Hcase as [Hne | Hlay]; [ left; apply Hact; exact Hne | right; exact Hlay ]. }
  cbn [bind]. rewrite Hlo, Hhi. unfold renderXandYAxis_ticks, diff_years. cbn [bind].
  eexists. reflexivity.
Qed.

Lemma render_throws_on_empty_header (settings : VisualSettings) (width height : Q)
  (now : Z) (converted : list TimelineData) :
  slice_0_100 converted = [] ->
  (is_layout settings "header" || is_layout settings "footer")%bool = true ->
  render settings width height now converted = Throw TypeError.
Proof.
  intros Hnil Hlay. unfold render. cbv zeta. rewrite Hnil.
  rewrite window_filter_empty. cbn [bind active].
  unfold renderHeaderAndFooter. cbn [hd_error].
  destruct (is_layout settings "header"); [ reflexivity | ].
  destruct (is_layout settings "footer"); [ reflexivity | discriminate ].
Qed.

(** X7.  The render pass has two ways to fail and no other: one of the first
    100 records has a [null] date, or there is no record at all while the
    layout is "header" or "footer". *)
Theorem render_throws_iff (settings : VisualSettings) (width height : Q) (now : Z)
  (converted : list TimelineData) :
  render settings width height now converted = Throw TypeError
  <-> existsb has_null_date (firstn 100 converted) = true
      \/ (firstn 100 converted = []
          /\ (is_layout settings "header" || is_layout settings "footer")%bool = true).
Proof.
  change (firstn 100 converted) with (slice_0_100 converted).
  split.
  - intros H.
    destruct (existsb has_null_date (slice_0_100 converted)) eqn:Hnull; [ left; reflexivity | ].
    right.
    destruct (is_layout settings "header" || is_layout settings "footer")%bool eqn:Hlay.
    + split; [ | reflexivity ].
      assert (Hd : slice_0_100 converted = [] \/ slice_0_100 converted <> [])
        by (destruct (slice_0_100 converted); [ left; reflexivity | right; discriminate ]).
      destruct Hd as [Hnil | Hne]; [ exact Hnil | ].
      destruct (render_Ok_when settings width height now converted Hnull) as (out & Hout).
      * left. exact Hne.
      * congruence.
    + destruct (render_Ok_when settings width height now converted Hnull) as (out & Hout).
      * right. exact Hlay.
      * congruence.
  - intros [Hnull | (Hnil & Hlay)].
    + apply render_throws_on_null_date. exact Hnull.
    + apply render_throws_on_empty_header; assumption.
Qed.

(** X8.  Whenever the render pass returns, it shows the records of the first
    100 that lie in the window, in input order, or all of the first 100
    when none does. *)
Theorem render_shows_window_or_all (settings : VisualSettings) (width height : Q)
  (now : Z) (converted : list TimelineData) (out : Rendered) :
  render settings width height now converted = Ok out ->
  shown out =
    (if existsb (in_year_window settings now) (firstn 100 converted)
     then filter (in_year_window settings now) (firstn 100 converted)
     else firstn 100 converted)
  /\ domain out =
    (if existsb (in_year_window settings now) (firstn 100 converted)
     then (Some (window_start settings now), Some (window_end settings now))
     else (Some (january_1 (getFullYear (earliest (firstn 100 converted)))),
           Some (january_1 (num_add (getFullYear (latest (firstn 100 converted)))
                                    (Fin 1))))).
Proof.
  intros H. destruct (render_shown _ _ _ _ _ _ H) as (r & Hr & -> & -> & _).
  unfold slice_0_100 in Hr. apply update_window_Ok_shape in Hr.
  destruct Hr as (_ & ->).
  destruct (existsb (in_year_window settings now) (firstn 100 converted));
    split; reflexivity.
Qed.

(** X9.  Without records and with a layout other than "header" and "footer"
    the render pass returns an empty chart: no image, no marker, an
    invalid domain and yearly ticks. *)
Theorem render_empty_chart (settings : VisualSettings) (width height : Q) (now : Z) :
  (is_layout settings "header" || is_layout settings "footer")%bool = false ->
  render settings width height now [] =
  Ok {| svg_width := width; svg_height := height; headerFooter := NoImage;
        ticks := YearlyTicks; domain := (Some InvalidDate, Some InvalidDate);
        shown := []; lines := []; arrows := []; boxes := [] |}.
Proof.
  intros Hlay. unfold render, slice_0_100. cbn [firstn]. cbv zeta.
  rewrite window_filter_empty. cbn [bind active minDate maxDate].
  rewrite Hlay. apply Bool.orb_false_iff in Hlay. destruct Hlay as (Hh & Hf).
  unfold renderHeaderAndFooter. rewrite Hh, Hf. cbn [bind]. reflexivity.
Qed.

End WindowResults.

(** ** Dates, tooltips and markers *)

Section Markers.

Context {cells : NumberCells} {host : Host}.

Lemma LocalTime_UTC (t : Z) : LocalTime (UTC t) = t.
Proof. unfold LocalTime, UTC. lia. Qed.

Lemma DayWithinYear_range (t : Z) :
  0 <= DayWithinYear t < DaysInYear (YearFromTime t).
Proof.
  unfold DayWithinYear. pose proof (YearFromTime_spec t) as [Hlo Hhi].
  pose proof (DayFromYear_step (YearFromTime t)). lia.
Qed.

Lemma DayWithinYear_TimeFromYear (y : Z) : DayWithinYear (TimeFromYear y) = 0.
Proof.
  unfold DayWithinYear. rewrite YearFromTime_TimeFromYear, Day_TimeFromYear. lia.
Qed.

Lemma new_year_fields (y : Z) :
  getFullYear (new_year y) = Fin y
  /\ getMonth (new_year y) = Fin 0
  /\ getDate (new_year y) = Fin 1.
Proof.
  unfold new_year, getFullYear, getMonth, getDate. rewrite LocalTime_UTC.
  rewrite YearFromTime_TimeFromYear.
  assert (Hm : MonthFromTime (TimeFromYear y) = 0).
  { unfold MonthFromTime. rewrite DayWithinYear_TimeFromYear. reflexivity. }
  split; [ reflexivity | ]. split; [ rewrite Hm; reflexivity | ].
  unfold DateFromTime. rewrite Hm, DayWithinYear_TimeFromYear. reflexivity.
Qed.

Lemma january_1_of (y : Z) :
  january_1 (Fin y)
  = Date_ofValue (Fin (UTC (TimeFromYear
                              (if ((0 <=? y) && (y <=? 99))%bool then 1900 + y else y)))).
Proof.
  unfold january_1, Date_ofYMD. rewrite MakeDay_january_1.
  unfold MakeDate, TimeFromYear. rewrite Z.add_0_r, (Z.mul_comm msPerDay). reflexivity.
Qed.

(** X10.  What [new Date(year, 0, 1)] is.  For a year outside 0..99 whose first
    instant is a representable time it is local midnight of 1 January of
    that year; a year from 0 to 99 is read as 1900 + year; a year that is
    not finite gives an Invalid Date. *)
Theorem january_1_meaning :
  (forall y : Z,
     y < 0 \/ 99 < y -> Z.abs (UTC (TimeFromYear y)) <= maxTime ->
     january_1 (Fin y) = new_year y
     /\ getFullYear (january_1 (Fin y)) = Fin y
     /\ getMonth (january_1 (Fin y)) = Fin 0
     /\ getDate (january_1 (Fin y)) = Fin 1)
  /\ (forall y : Z, 0 <= y <= 99 -> january_1 (Fin y) = january_1 (Fin (1900 + y)))
  /\ january_1 NaN = InvalidDate
  /\ january_1 PosInfinity = InvalidDate
  /\ january_1 NegInfinity = InvalidDate.
Proof.
  split; [ | split; [ | repeat split ] ].
  - intros y Hy Hr.
    assert (E : january_1 (Fin y) = new_year y).
    { rewrite january_1_of.
      replace ((0 <=? y) && (y <=? 99))%bool with false
        by (symmetry; apply Bool.andb_false_iff; destruct Hy;
            [ left; apply Z.leb_gt; lia | right; apply Z.leb_gt; lia ]).
      apply Date_ofValue_in_range. exact Hr. }
    rewrite E. split; [ reflexivity | apply new_year_fields ].
  - intros y Hy. rewrite !january_1_of.
    replace ((0 <=? y) && (y <=? 99))%bool with true
      by (symmetry; apply Bool.andb_true_iff; split; apply Z.leb_le; lia).
    replace ((0 <=? 1900 + y) && (1900 + y <=? 99))%bool with false
      by (symmetry; apply Bool.andb_false_iff; right; apply Z.leb_gt; lia).
    reflexivity.
Qed.

Lemma calendar_fields_in_range (t : Z) :
  0 <= MonthFromTime t <= 11 /\ 1 <= DateFromTime t <= 31.
Proof.
  pose proof (DayWithinYear_range t) as Hd.
  unfold DateFromTime, MonthFromTime, InLeapYear in *.
  set (d := DayWithinYear t) in *.
  assert (Hl : DaysInYear (YearFromTime t) = 365 \/ DaysInYear (YearFromTime t) = 366).
  { pose proof (DaysInYear_range (YearFromTime t)). lia. }
  destruct Hl as [Hl | Hl]; rewrite Hl in *; cbn [Z.eqb Pos.eqb]; cbv zeta;
    repeat match goal with
           | |- context [?a <? ?b] => destruct (Z.ltb_spec a b)
           end; lia.
Qed.

Lemma MakeDay_small (y m dt : Z) :
  0 <= m <= 11 ->
  MakeDay y m dt = DayFromYear y + DaysBeforeMonth m (DaysInYear y =? 366) + dt - 1.
Proof.
  intros Hm. unfold MakeDay. rewrite Z.div_small, Z.mod_small by lia.
  cbv zeta. replace (y + 0) with y by lia. reflexivity.
Qed.

(** The year, month and day of a time value name the day it falls on. *)
Lemma MakeDay_of_fields (t : Z) :
  MakeDay (YearFromTime t) (MonthFromTime t) (DateFromTime t) = Day t.
Proof.
  rewrite MakeDay_small by (apply calendar_fields_in_range).
  pose proof (DayWithinYear_range t) as Hd.
  assert (E : DaysBeforeMonth (MonthFromTime t) (DaysInYear (YearFromTime t) =? 366)
              + DateFromTime t - 1 = DayWithinYear t).
  { unfold DateFromTime, MonthFromTime, InLeapYear in *.
    set (d := DayWithinYear t) in *.
    destruct (DaysInYear (YearFromTime t) =? 366); cbv zeta;
      repeat match goal with
             | |- context [?a <? ?b] => destruct (Z.ltb_spec a b)
             end; cbn [DaysBeforeMonth]; lia. }
  unfold DayWithinYear in E. lia.
Qed.

(** Before December, the day of a time value comes before the first day of
    the month after its own. *)
Lemma MakeDay_next_month (t : Z) :
  MonthFromTime t < 11 ->
  Day t < MakeDay (YearFromTime t) (MonthFromTime t + 1) 1.
Proof.
  intros Hm. pose proof (calendar_fields_in_range t) as (Hr & _).
  rewrite MakeDay_small by lia.
  assert (E : DayWithinYear t
              < DaysBeforeMonth (MonthFromTime t + 1) (DaysInYear (YearFromTime t) =? 366)).
  { revert Hm. clear Hr. unfold MonthFromTime, InLeapYear.
    set (d := DayWithinYear t).
    destruct (DaysInYear (YearFromTime t) =? 366); cbv zeta;
      repeat match goal with
             | |- context [?a <? ?b] => destruct (Z.ltb_spec a b)
             end; cbn [DaysBeforeMonth Z.add Pos.add Pos.succ]; lia. }
  unfold DayWithinYear in E. lia.
Qed.

(** X11.  The date block of a tooltip shows the local calendar date of the
    record's time value as month/day/year: the month runs from 1 to 12 and
    the day from 1 to 31, that day of that month of the local year is the
    local day the time value falls on, and (before December) the first of
    the following month comes later.  For an Invalid Date the block shows
    NaN three times. *)
Theorem dateHtml_shows_a_calendar_date :
  (forall t : Z,
     exists m d : Z,
       dateHtml (ValidDate t)
       = ("<div>" ++ number_toString (Fin m) ++ "/" ++ number_toString (Fin d) ++ "/"
          ++ number_toString (Fin (year_of_time t)) ++ "</div>")%string
       /\ 1 <= m <= 12 /\ 1 <= d <= 31
       /\ MakeDay (year_of_time t) (m - 1) d = Day (LocalTime t)
       /\ MakeDay (year_of_time t) (m - 1) 1 <= Day (LocalTime t)
       /\ (m < 12 -> Day (LocalTime t) < MakeDay (year_of_time t) m 1))
  /\ dateHtml InvalidDate = "<div>NaN/NaN/NaN</div>"%string.
Proof.
  split; [ | reflexivity ].
  intros t. pose proof (calendar_fields_in_range (LocalTime t)) as (Hm & Hd).
  pose proof (MakeDay_of_fields (LocalTime t)) as Hday.
  exists (MonthFromTime (LocalTime t) + 1), (DateFromTime (LocalTime t)).
  replace (MonthFromTime (LocalTime t) + 1 - 1) with (MonthFromTime (LocalTime t)) by lia.
  unfold year_of_time.
  split; [ reflexivity | ]. split; [ lia | ]. split; [ exact Hd | ].
  split; [ exact Hday | ]. split.
  - rewrite MakeDay_small in Hday |- * by exact Hm. lia.
  - intros Hlt. apply MakeDay_next_month. lia.
Qed.


(** X14.  A record of any other type has an empty tooltip, no fill and no
    class; one without a date makes the handler throw. *)
Theorem unrecognized_type_is_blank (settings : VisualSettings) (d : TimelineData) :
  (recognized (Type_ d) = false ->
   type_fill settings d = None /\ box_class d = None
   /\ forall dt, Date d = Some dt -> tooltip_html d = Ok ""%string)
  /\ (recognized (Type_ d) = true -> type_fill settings d <> None /\ box_class d <> None)
  /\ (Date d = None -> tooltip_html d = Throw TypeError).
Proof.
  unfold recognized, type_fill, box_class, tooltip_html.
  destruct (String.eqb (Type_ d) "Regulatory");
    [ | destruct (String.eqb (Type_ d) "Commercial");
        [ | destruct (String.eqb (Type_ d) "Clinical Trials") ] ];
    cbn [orb]; (split; [ | split ]);
    try (intros H; discriminate H);
    try (intros _; split; discriminate);
    try (intros ->; reflexivity).
  intros _. split; [ reflexivity | ]. split; [ reflexivity | ].
  intros dt ->. reflexivity.
Qed.


Lemma nth_error_indexed {A : Type} (xs : list A) (k i : nat) (p : nat * A) :
  nth_error (combine (seq k (List.length xs)) xs) i = Some p ->
  fst p = (k + i)%nat /\ nth_error xs i = Some (snd p).
Proof.
  revert k i. induction xs as [| x rest IH]; intros k i; simpl.
  - destruct i; discriminate.
  - destruct i as [| i]; simpl.
    + intros H. injection H as <-. split; [ simpl; lia | reflexivity ].
    + intros H. apply IH in H. destruct H as (Hf & Hs). split; [ lia | exact Hs ].
Qed.


(** X16.  Marker [i] of each render step belongs to record [i] of the sequence
    it was given, and its lane and level are those of position [i]. *)
Theorem markers_follow_positions (settings : VisualSettings) (lo hi : option JSDate)
  (gWidth gHeight : Q) (timelineData : list TimelineData) (i : nat) :
  (forall ln, nth_error (renderLine settings lo hi gWidth gHeight timelineData) i = Some ln ->
     exists d, nth_error timelineData i = Some d
       /\ line_title ln = title_of d
       /\ line_y ln = yScale gHeight (renderLine_y_level i)
       /\ line_height ln = (gHeight - yScale gHeight (renderLine_height_level i))%Q)
  /\ (forall ar, nth_error (renderArrow settings lo hi gWidth gHeight timelineData) i = Some ar ->
        exists d, nth_error timelineData i = Some d
          /\ arrow_y ar = yScale gHeight (if Nat.even i then -25 else 14)
          /\ arrow_rotated ar = Nat.odd i)
  /\ (forall bx, nth_error (renderBox settings lo hi gWidth gHeight timelineData) i = Some bx ->
        exists d, nth_error timelineData i = Some d
          /\ box_y bx = yScale gHeight (renderBox_level i)
          /\ box_href bx = DocumentLink d
          /\ box_label bx = box_text d
          /\ box_id bx = selectionId d).
Proof.
  unfold renderLine, renderArrow, renderBox, indexed.
  split; [ | split ].
  - intros ln H. rewrite nth_error_map in H.
    destruct (nth_error (combine (seq 0 (List.length timelineData)) timelineData) i)
      as [[j d] |] eqn:E; [ | discriminate ].
    apply nth_error_indexed in E. destruct E as (Hj & Hd). cbn [fst snd] in *.
    cbn [option_map] in H. injection H as <-. subst j.
    exists d. repeat split; auto.
  - intros ar H. rewrite nth_error_map in H.
    destruct (nth_error (combine (seq 0 (List.length timelineData)) timelineData) i)
      as [[j d] |] eqn:E; [ | discriminate ].
    apply nth_error_indexed in E. destruct E as (Hj & Hd). cbn [fst snd] in *.
    cbn [option_map] in H. injection H as <-. subst j.
    exists d. cbn [arrow_y arrow_rotated Nat.add]. unfold renderArrow_level.
    rewrite odd_mod2, even_mod2.
    destruct (i mod 2 =? 0)%nat; repeat split; auto.
  - intros bx H. rewrite nth_error_map in H.
    destruct (nth_error (combine (seq 0 (List.length timelineData)) timelineData) i)
      as [[j d] |] eqn:E; [ | discriminate ].
    apply nth_error_indexed in E. destruct E as (Hj & Hd). cbn [fst snd] in *.
    cbn [option_map] in H. injection H as <-. subst j.
    exists d. repeat split; auto.
Qed.

(** X17.  The bar, the arrow and the box of a position lie on the same side of
    the axis: below it at even positions, above it (with the arrow turned
    around) at odd ones.  The four box levels -80, 55, -40, 95 repeat
    every four positions. *)
Theorem marker_sides_agree (i : nat) :
  (renderLine_y_level i < 0 <-> Nat.even i = true)
  /\ (renderBox_level i < 0 <-> Nat.even i = true)
  /\ (fst (renderArrow_level i) < 0 <-> Nat.even i = true)
  /\ snd (renderArrow_level i) = Nat.odd i
  /\ renderBox_level (i + 4) = renderBox_level i
  /\ renderBox_level i = nth (i mod 4) [-80; 55; -40; 95] 0.
Proof.
  assert (P : renderBox_level (i + 4) = renderBox_level i).
  { rewrite (renderBox_level_mod4 (i + 4)), add4_mod4. symmetry.
    apply renderBox_level_mod4. }
  assert (T : renderBox_level i = nth (i mod 4) [-80; 55; -40; 95] 0).
  { rewrite renderBox_level_mod4.
    pose proof (Nat.mod_upper_bound i 4 ltac:(discriminate)) as Hr.
    destruct (i mod 4)%nat as [| [| [| [| k]]]]; try reflexivity. lia. }
  assert (S : (renderLine_y_level i < 0 <-> Nat.even i = true)
              /\ (renderBox_level i < 0 <-> Nat.even i = true)
              /\ (fst (renderArrow_level i) < 0 <-> Nat.even i = true)
              /\ snd (renderArrow_level i) = Nat.odd i).
  { rewrite odd_mod2, even_mod2.
    unfold renderLine_y_level, renderBox_level, renderArrow_level.
    destruct (i mod 2 =? 0)%nat eqn:E; cbn [fst snd negb].
    - destruct ((i / 2) mod 2 =? 0)%nat;
        repeat split; intros; try reflexivity; try lia; try discriminate.
    - destruct (Math_ceil_half i mod 2 =? 0)%nat;
        repeat split; intros; try reflexivity; try lia; try discriminate. }
  destruct S as (S1 & S2 & S3 & S4). repeat split; try apply S1; try apply S2;
    try apply S3; auto.
Qed.

End Markers.

(** ** Text: tags and wrapping *)

Section Text.

Context {cells : NumberCells} {host : Host}.

Lemma find_gt_length (s : string) (k : nat) (after : string) :
  find_gt s = Some (k, after) -> String.length s = (k + 1 + String.length after)%nat.
Proof.
  revert k after. induction s as [| c rest IH]; intros k after; cbn [find_gt].
  - discriminate.
  - destruct (Ascii.eqb c ">").
    + intros H. injection H as <- <-. reflexivity.
    + destruct (find_gt rest) as [[k' after'] |]; [ | discriminate ].
      intros H. injection H as <- <-. cbn [String.length].
      rewrite (IH k' after' eq_refl). lia.
Qed.

(** Any fuel from the length of the text on gives the same result. *)
Lemma strip_tags_fuel_enough (fuel : nat) (s : string) :
  (String.length s <= fuel)%nat -> strip_tags_fuel fuel s = strip_tags s.
Proof.
  unfold strip_tags.
  assert (G : forall f1 f2 t, (String.length t <= f1)%nat -> (String.length t <= f2)%nat ->
                              strip_tags_fuel f1 t = strip_tags_fuel f2 t).
  { induction f1 as [| f1 IH]; intros f2 t H1 H2.
    - destruct t; [ destruct f2; reflexivity | simpl in H1; lia ].
    - destruct f2 as [| f2]; [ destruct t; [ reflexivity | simpl in H2; lia ] | ].
      cbn [strip_tags_fuel]. destruct t as [| c rest]; [ reflexivity | ].
      cbn [String.length] in H1, H2.
      destruct (Ascii.eqb c "<").
      + destruct (find_gt rest) as [[[| k] after] |] eqn:E; [ | | reflexivity ].
        * f_equal. apply IH; lia.
        * apply find_gt_length in E. apply IH; lia.
      + f_equal. apply IH; lia. }
  intros H. apply G; [ exact H | lia ].
Qed.

(** The equation of [strip_tags]. *)
Lemma strip_tags_cons (c : ascii) (rest : string) :
  strip_tags (String c rest) =
  if Ascii.eqb c "<" then
    match find_gt rest with
    | None => String c rest
    | Some (O, _) => String c (strip_tags rest)
    | Some (S _, after) => strip_tags after
    end
  else String c (strip_tags rest).
Proof.
  unfold strip_tags at 1. cbn [String.length strip_tags_fuel].
  destruct (Ascii.eqb c "<").
  - destruct (find_gt rest) as [[[| k] after] |] eqn:E; [ | | reflexivity ].
    + reflexivity.
    + apply find_gt_length in E. apply strip_tags_fuel_enough. lia.
  - reflexivity.
Qed.

Lemma find_gt_immediate (rest after : string) :
  find_gt rest = Some (O, after) -> rest = String ">" after.
Proof.
  destruct rest as [| c r]; cbn [find_gt]; [ discriminate | ].
  destruct (Ascii.eqb_spec c ">") as [-> | Hc].
  - intros H. injection H as <-. reflexivity.
  - destruct (find_gt r) as [[k a] |]; discriminate.
Qed.

Lemma strip_tags_length_le (s : string) :
  (String.length (strip_tags s) <= String.length s)%nat.
Proof.
  assert (G : forall n t, (String.length t <= n)%nat ->
                          (String.length (strip_tags t) <= String.length t)%nat);
    [ | apply (G (String.length s)); lia ].
  clear s. induction n as [| n IH]; intros s Hle.
  - destruct s; [ simpl; lia | simpl in Hle; lia ].
  - destruct s as [| c rest]; [ simpl; lia | ].
    cbn [String.length] in Hle. rewrite strip_tags_cons.
    destruct (Ascii.eqb c "<").
    + destruct (find_gt rest) as [[[| k] after] |] eqn:E.
      * cbn [String.length]. specialize (IH rest ltac:(lia)). lia.
      * apply find_gt_length in E. specialize (IH after ltac:(lia)).
        cbn [String.length]. lia.
      * lia.
    + cbn [String.length]. specialize (IH rest ltac:(lia)). lia.
Qed.

Lemma strip_tags_idem (s : string) : strip_tags (strip_tags s) = strip_tags s.
Proof.
  remember (String.length s) as n eqn:Hn.
  assert (Hle : (String.length s <= n)%nat) by lia. clear Hn.
  revert s Hle. induction n as [| n IH]; intros s Hle.
  - destruct s; [ reflexivity | simpl in Hle; lia ].
  - destruct s as [| c rest]; [ reflexivity | ].
    cbn [String.length] in Hle. rewrite (strip_tags_cons c rest).
    destruct (Ascii.eqb c "<") eqn:Hc.
    + destruct (find_gt rest) as [[[| k] after] |] eqn:E.
      * pose proof (find_gt_immediate rest after E) as ->.
        rewrite (strip_tags_cons ">" after). cbn [Ascii.eqb Bool.eqb].
        rewrite (strip_tags_cons c), Hc. cbn [find_gt Ascii.eqb Bool.eqb].
        rewrite (strip_tags_cons ">" (strip_tags after)). cbn [Ascii.eqb Bool.eqb].
        rewrite IH by (cbn [String.length] in Hle; lia). reflexivity.
      * apply find_gt_length in E. apply IH. lia.
      * rewrite strip_tags_cons, Hc, E. reflexivity.
    + rewrite strip_tags_cons, Hc. f_equal. apply IH. lia.
Qed.

Lemma strip_tags_plain (s : string) : has_char "<" s = false -> strip_tags s = s.
Proof.
  induction s as [| c rest IH]; [ reflexivity | ].
  cbn [has_char]. intros H. apply Bool.orb_false_iff in H. destruct H as (Hc & Hrest).
  rewrite strip_tags_cons, Hc, IH by exact Hrest. reflexivity.
Qed.

Lemma find_gt_app (name after : string) :
  has_char ">" name = false ->
  find_gt (name ++ String ">" after) = Some (String.length name, after).
Proof.
  induction name as [| c rest IH]; cbn [has_char]; intros H.
  - reflexivity.
  - apply Bool.orb_false_iff in H. destruct H as (Hc & Hrest).
    cbn [append find_gt String.length]. rewrite Hc, IH by exact Hrest. reflexivity.
Qed.

(** X18.  What [extractContent] does to a text: a tag, that is ["<"], a
    non-empty name free of [">"], and [">"], disappears whole when no
    ["<"] precedes it; a text without ["<"] is returned as it is; the
    result is never longer than the text, and stripping it again changes
    nothing.  [null] and the empty text give [false]. *)
Theorem extractContent_strips_tags :
  (forall before name after : string,
     has_char "<" before = false -> has_char ">" name = false ->
     name <> ""%string ->
     strip_tags (before ++ String "<" (name ++ String ">" after))
     = (before ++ strip_tags after)%string)
  /\ (forall s t : string,
        extractContent (Some s) = ExText t ->
        t = strip_tags s
        /\ (String.length t <= String.length s)%nat
        /\ strip_tags t = t
        /\ (has_char "<" s = false -> t = s))
  /\ extractContent None = ExFalse
  /\ extractContent (Some ""%string) = ExFalse.
Proof.
  split; [ | split; [ | split; reflexivity ] ].
  - intros before name after Hb Hn Hne.
    induction before as [| c rest IH].
    + cbn [append]. rewrite strip_tags_cons. cbn [Ascii.eqb Bool.eqb].
      rewrite find_gt_app by exact Hn.
      destruct name as [| a name']; [ congruence | reflexivity ].
    + cbn [has_char] in Hb. apply Bool.orb_false_iff in Hb. destruct Hb as (Hc & Hrest).
      cbn [append]. rewrite strip_tags_cons, Hc, IH by exact Hrest. reflexivity.
  - intros s t H. unfold extractContent in H.
    destruct (is_empty_string s); [ discriminate | ].
    injection H as <-.
    split; [ reflexivity | ]. split; [ apply strip_tags_length_le | ].
    split; [ apply strip_tags_idem | apply strip_tags_plain ].
Qed.

(** *** wrap *)

Lemma wrap_loop_length (width : Q) (words line done : list string) :
  (List.length (wrap_loop width words line done)
   <= List.length done + 1 + List.length words)%nat.
Proof.
  revert line done. induction words as [| word rest IH]; intros line done;
    cbn [wrap_loop].
  - rewrite length_app. simpl. lia.
  - destruct (is_empty_string word); [ rewrite length_app; simpl; lia | ].
    destruct (Qlt_le_dec width (getComputedTextLength (String.concat " " (line ++ [word])))).
    + etransitivity; [ apply IH | ]. rewrite length_app. simpl. lia.
    + etransitivity; [ apply IH | ]. simpl. lia.
Qed.

Lemma wrap_loop_lines_ok (width : Q) (all words line done : list string) :
  incl words all ->
  line_ok width all (String.concat " " line) ->
  Forall (line_ok width all) done ->
  Forall (line_ok width all) (wrap_loop width words line done).
Proof.
  revert line done. induction words as [| word rest IH]; intros line done Hincl Hline Hdone;
    cbn [wrap_loop].
  - apply Forall_app. split; [ exact Hdone | constructor; [ exact Hline | constructor ] ].
  - destruct (is_empty_string word);
      [ apply Forall_app; split; [ exact Hdone | constructor; [ exact Hline | constructor ] ] | ].
    assert (Hrest : incl rest all) by (intros x Hx; apply Hincl; right; exact Hx).
    destruct (Qlt_le_dec width (getComputedTextLength (String.concat " " (line ++ [word]))))
      as [Hover | Hfit].
    + apply IH; [ exact Hrest | | ].
      * right. left. cbn [String.concat]. apply Hincl. left. reflexivity.
      * apply Forall_app. split; [ exact Hdone | constructor; [ exact Hline | constructor ] ].
    + apply IH; [ exact Hrest | | exact Hdone ]. right. right. exact Hfit.
Qed.

(** X20.  [wrap] makes at most one tspan more than there are words, and every
    tspan it leaves is empty, holds a single word, or fits the width. *)
Theorem wrap_lines_fit (words : list string) (width : Q) :
  (List.length (wrap words width) <= List.length words + 1)%nat
  /\ Forall (line_ok width words) (wrap words width).
Proof.
  unfold wrap. split.
  - pose proof (wrap_loop_length width words [] []). simpl in *. lia.
  - apply wrap_loop_lines_ok; [ apply incl_refl | left; reflexivity | constructor ].
Qed.

Lemma wrap_loop_groups (width : Q) (words line : list string)
  (closed : list (list string)) :
  exists groups,
    wrap_loop width words line (map (String.concat " ") closed)
    = map (String.concat " ") groups
    /\ List.concat groups = (List.concat closed ++ line ++ placed_words words)%list.
Proof.
  revert line closed. induction words as [| word rest IH]; intros line closed;
    cbn [wrap_loop placed_words].
  - exists (closed ++ [line])%list. rewrite map_app, concat_app. cbn [map List.concat].
    rewrite !app_nil_r. split; reflexivity.
  - destruct (is_empty_string word).
    + exists (closed ++ [line])%list. rewrite map_app, concat_app. cbn [map List.concat].
      rewrite !app_nil_r. split; reflexivity.
    + destruct (Qlt_le_dec width
                  (getComputedTextLength (String.concat " " (line ++ [word])))).
      * destruct (IH [word] (closed ++ [line])%list) as (groups & Hg & Hc).
        exists groups. rewrite map_app in Hg. cbn [map] in Hg.
        split; [ exact Hg | ]. rewrite Hc, concat_app. cbn [List.concat].
        rewrite app_nil_r, <- !app_assoc. reflexivity.
      * destruct (IH (line ++ [word])%list closed) as (groups & Hg & Hc).
        exists groups. split; [ exact Hg | ]. rewrite Hc, <- !app_assoc. reflexivity.
Qed.

(** X21.  [wrap] loses and reorders nothing before the first empty word: its
    tspans are the joins of consecutive groups of those words.  The words
    after an empty word (as after leading white space) are not placed. *)
Theorem wrap_keeps_words_in_order (words : list string) (width : Q) :
  exists groups,
    wrap words width = map (String.concat " ") groups
    /\ List.concat groups = placed_words words.
Proof.
  destruct (wrap_loop_groups width words [] []) as (groups & Hg & Hc).
  exists groups. split; [ exact Hg | exact Hc ].
Qed.

End Text.

(** ** The vertical scale *)

Section Scale.

Context {cells : NumberCells} {host : Host}.

Lemma yScale_formula (gHeight : Q) (v : Z) :
  (yScale gHeight v
   == gHeight + (margin_top - gHeight) * ((inject_Z v + 100) * (1 # 200)))%Q.
Proof.
  unfold yScale, scaleLinear, interpolateNumber.
  change (Qeq_bool (-100 # 1) (100 # 1)) with false. cbv iota. field.
Qed.

(** X22.  The vertical scale sends -100 to the bottom of the plot and 100 to
    its top margin, and on a plot higher than the margin it is inverted:
    a larger value lies higher up, at a smaller coordinate.  Every bar then
    has a positive height. *)
Theorem yScale_is_inverted (gHeight : Q) :
  (yScale gHeight (-100) == gHeight)%Q
  /\ (yScale gHeight 100 == margin_top)%Q
  /\ ((margin_top < gHeight)%Q ->
      forall u v : Z, u < v -> (yScale gHeight v < yScale gHeight u)%Q)
  /\ ((margin_top < gHeight)%Q ->
      forall i : nat, (0 < renderLine_height gHeight i)%Q).
Proof.
  split; [ | split; [ | split ] ].
  - rewrite yScale_formula. unfold margin_top. cbn [inject_Z]. field.
  - rewrite yScale_formula. unfold margin_top. cbn [inject_Z]. field.
  - intros Hg u v Huv. rewrite !yScale_formula.
    assert (Hq : (inject_Z u < inject_Z v)%Q) by (rewrite <- Zlt_Qlt; exact Huv).
    unfold margin_top in *.
    set (x := inject_Z u) in *. set (y := inject_Z v) in *. clearbody x y.
    assert (Hp : (0 < (gHeight - 50) * (y - x))%Q)
      by (apply Qmult_lt_0_compat; lra).
    nra.
  - intros Hg i. unfold renderLine_height. rewrite yScale_formula.
    unfold margin_top in *. unfold renderLine_height_level.
    destruct (i mod 2 =? 0)%nat;
      [ destruct ((i / 2) mod 2 =? 0)%nat | destruct (Math_ceil_half i mod 2 =? 0)%nat ];
      unfold inject_Z; lra.
Qed.

End Scale.

(** ** The year window, the fallback domain and the cap *)

Section YearWindow.

Context {cells : NumberCells} {host : Host}.

Lemma Date_ofValue_out_of_range (t : Z) :
  maxTime < Z.abs t -> Date_ofValue (Fin t) = InvalidDate.
Proof.
  intros H. unfold Date_ofValue, TimeClip.
  destruct (Z.ltb_spec maxTime (Z.abs t)); [ reflexivity | lia ].
Qed.

(** The year of [new Date(y, 0, 1)]. *)
Lemma getFullYear_january_1 (y : Z) : getFullYear (january_1 (Fin y)) = bound_year y.
Proof.
  rewrite january_1_of. unfold bound_year. cbv zeta.
  set (yr := if ((0 <=? y) && (y <=? 99))%bool then 1900 + y else y).
  destruct (Z.leb_spec (Z.abs (UTC (TimeFromYear yr))) maxTime) as [H | H].
  - rewrite Date_ofValue_in_range by exact H. unfold getFullYear.
    rewrite LocalTime_UTC, YearFromTime_TimeFromYear. reflexivity.
  - rewrite Date_ofValue_out_of_range by exact H. reflexivity.
Qed.

Lemma window_start_january_1 (settings : VisualSettings) (now : Z) :
  window_start settings now
  = january_1 (Fin (year_of_time now - PreviousYear (displayYears settings))).
Proof.
  unfold window_start, january_1, year_of_time. cbv zeta.
  cbn [getFullYear num_sub num_add num_neg]. rewrite Z.add_opp_r. reflexivity.
Qed.

Lemma window_end_january_1 (settings : VisualSettings) (now : Z) :
  window_end settings now
  = january_1 (Fin (year_of_time now + FutureYear (displayYears settings))).
Proof.
  unfold window_end, january_1, year_of_time. cbv zeta.
  cbn [getFullYear num_add]. reflexivity.
Qed.

Lemma in_year_window_bounds (settings : VisualSettings) (now : Z) (d : TimelineData) :
  in_year_window settings now d
  = (num_ge (record_year d)
       (bound_year (year_of_time now - PreviousYear (displayYears settings)))
     && num_le (record_year d)
          (bound_year (year_of_time now + FutureYear (displayYears settings))))%bool.
Proof.
  unfold in_year_window.
  rewrite window_start_january_1, window_end_january_1, !getFullYear_january_1.
  reflexivity.
Qed.

Lemma bound_year_plain (y : Z) : plain_year y -> bound_year y = Fin y.
Proof.
  intros (Hy & Hr). unfold bound_year. cbv zeta.
  replace ((0 <=? y) && (y <=? 99))%bool with false
    by (symmetry; apply Bool.andb_false_iff; destruct Hy;
        [ left; apply Z.leb_gt; lia | right; apply Z.leb_gt; lia ]).
  destruct (Z.leb_spec (Z.abs (UTC (TimeFromYear y))) maxTime); [ reflexivity | lia ].
Qed.

Lemma bound_year_two_digit (y : Z) :
  0 <= y <= 99 -> Z.abs (UTC (TimeFromYear (1900 + y))) <= maxTime ->
  bound_year y = Fin (1900 + y).
Proof.
  intros Hy Hr. unfold bound_year. cbv zeta.
  replace ((0 <=? y) && (y <=? 99))%bool with true
    by (symmetry; apply Bool.andb_true_iff; split; apply Z.leb_le; lia).
  destruct (Z.leb_spec (Z.abs (UTC (TimeFromYear (1900 + y)))) maxTime);
    [ reflexivity | lia ].
Qed.














(** C2, as the code has it.  On a non-empty sequence whose records all
    carry a Date object, the window filter returns, in their input order,
    exactly the records whose year lies between the year of
    [new Date(currentYear - PreviousYear, 0, 1)] and the year of
    [new Date(currentYear + FutureYear, 0, 1)].  When both of those years
    are outside 0..99 and representable, these are the records with a valid
    date whose year is at least currentYear - PreviousYear and at most
    currentYear + FutureYear.  A bound built from a year [y] from 0 to 99
    has the year 1900 + [y], not [y]. *)
Theorem C2_window_filter_keeps_years_in_window (settings : VisualSettings) (now : Z)
  (timelineData : list TimelineData) :
  timelineData <> [] ->
  Forall (fun d => Date d <> None) timelineData ->
  let lower := year_of_time now - PreviousYear (displayYears settings) in
  let upper := year_of_time now + FutureYear (displayYears settings) in
  exists w,
    window_filter settings now timelineData = Ok w
    /\ w_minDate w = Some (january_1 (Fin lower))
    /\ w_maxDate w = Some (january_1 (Fin upper))
    /\ timelineLocalData w
       = filter (fun d => (num_ge (record_year d) (bound_year lower)
                           && num_le (record_year d) (bound_year upper))%bool)
           timelineData
    /\ (plain_year lower -> plain_year upper ->
        timelineLocalData w
        = filter (fun d => match Date d with
                           | Some (ValidDate t) =>
                               ((lower <=? year_of_time t) && (year_of_time t <=? upper))%bool
                           | _ => false
                           end) timelineData
        /\ forall d, In d (timelineLocalData w) <->
                     In d timelineData
                     /\ exists t, Date d = Some (ValidDate t)
                                  /\ lower <= year_of_time t <= upper)
    /\ (forall y, plain_year y -> bound_year y = Fin y)
    /\ (forall y, 0 <= y <= 99 -> Z.abs (UTC (TimeFromYear (1900 + y))) <= maxTime ->
                  bound_year y = Fin (1900 + y)).
Proof.
  intros Hne Hall lower upper.
  eexists. split; [ apply window_filter_non_null; assumption | ].
  cbn [w_minDate w_maxDate timelineLocalData].
  split; [ rewrite window_start_january_1; reflexivity | ].
  split; [ rewrite window_end_january_1; reflexivity | ].
  split; [ apply filter_ext; intros d; apply in_year_window_bounds | ].
  split; [ | split; [ exact bound_year_plain | exact bound_year_two_digit ] ].
  intros Hlo Hhi.
  assert (E : forall d,
             in_year_window settings now d
             = match Date d with
               | Some (ValidDate t) =>
                   ((lower <=? year_of_time t) && (year_of_time t <=? upper))%bool
               | _ => false
               end).
  { intros d. rewrite in_year_window_bounds. fold lower upper.
    rewrite (bound_year_plain _ Hlo), (bound_year_plain _ Hhi).
    unfold record_year, year_of_time. destruct (Date d) as [[t |] |]; reflexivity. }
  split; [ apply filter_ext; exact E | ].
  intros d. rewrite filter_In, E. split.
  - intros (Hd & Hy). split; [ exact Hd | ].
    destruct (Date d) as [[t |] |]; try discriminate Hy.
    exists t. split; [ reflexivity | ].
    apply Bool.andb_true_iff in Hy. destruct Hy as (H1 & H2).
    apply Z.leb_le in H1. apply Z.leb_le in H2. split; assumption.
  - intros (Hd & t & Et & H1 & H2). split; [ exact Hd | ]. rewrite Et.
    apply Bool.andb_true_iff. split; apply Z.leb_le; assumption.
Qed.



End YearWindow.

(** ** Runs on the sample host *)

Import Sample.

(** C5, the claim as stated, fails twice: a view without a Company column
    makes the converter throw, and a date cell that does not parse yields
    an Invalid Date object, not [null]. *)
Lemma C5_converter_throws_and_keeps_invalid_dates :
  CONVERTER (view [column ["Date"%string]] [[PVstring "2023-06-01"]]) = Throw TypeError
  /\ CONVERTER (view [column ["Company"%string]; column ["Date"%string]]
                  [[PVstring "Acme"; PVstring "next spring"]])
     = Ok [event "" None (Some InvalidDate)].
Proof.
  split; reflexivity.
Qed.

(** C5 as amended, on a view with a Company column. *)
Lemma C5_converts_a_row_with_company :
  Forall (fun row =>
            has_toString
              (cell_of (scan_columns [column ["Company"%string]; column ["Date"%string]]
                          0 no_indexes) row RoleCompany) = true)
    [[PVstring "Acme"; PVstring "next spring"]]
  /\ exists dps,
       CONVERTER (view [column ["Company"%string]; column ["Date"%string]]
                    [[PVstring "Acme"; PVstring "next spring"]]) = Ok dps
       /\ List.length dps = 1%nat.
Proof.
  assert (H : Forall (fun row =>
                        has_toString
                          (cell_of (scan_columns
                                      [column ["Company"%string]; column ["Date"%string]]
                                      0 no_indexes) row RoleCompany) = true)
                [[PVstring "Acme"; PVstring "next spring"]])
    by (repeat constructor).
  split; [ exact H | ].
  destruct (C5_rows_convert_with_null_slots
              (view [column ["Company"%string]; column ["Date"%string]]
                 [[PVstring "Acme"; PVstring "next spring"]]) H)
    as ((dps & Hc & Hlen & _) & _).
  exists dps. split; [ exact Hc | exact Hlen ].
Defined.

(** C4.  A record whose date is [null] is not dropped: the first pass of
    the window filter calls [getFullYear] on it and throws, and the update
    of a view with an empty date cell fails with it, although another
    record lies in the window. *)
Theorem C4_null_date_throws_in_the_filter :
  window_filter (settings "" 2 1) june_2024
    [event "Regulatory" None (Some (ValidDate june_2023));
     event "Commercial" None None] = Throw TypeError
  /\ update (settings "" 2 1) 800 600 june_2024
       (view [column ["Company"%string]; column ["Date"%string]]
          [[PVstring "Acme"; PVstring "2023-06-01"]; [PVstring "Acme"; PVnull]])
     = Throw TypeError.
Proof.
  split; reflexivity.
Qed.

(** C9.  For the type "Clinical Trials" the tooltip does not show the
    sanitized description but the number it coerces to: "Approved" shows
    as NaN, while the same record typed "Regulatory" shows its text. *)
Theorem C9_clinical_trials_tooltip_shows_a_number :
  tooltip_html (event "Clinical Trials" (Some "Approved"%string)
                  (Some (ValidDate june_2023)))
  = Ok "<div>6/1/2023</div><div>Acme</div><div>NaN</div>"%string
  /\ tooltip_html (event "Regulatory" (Some "Approved"%string)
                     (Some (ValidDate june_2023)))
     = Ok "<div>6/1/2023</div><div>Acme</div><div>Approved</div>"%string.
Proof.
  split; reflexivity.
Qed.

(** One row of the sample table converts to one record. *)
Lemma converts_one_row_to_one_record :
  CONVERTER (view [column ["Company"%string]; column ["Date"%string]]
               [[PVstring "Acme"; PVstring "2023-06-01"]])
  = Ok [event "" None (Some (ValidDate 1685577600000))]
  /\ List.length [event "" None (Some (ValidDate 1685577600000))]
     = List.length (rows (table (view [column ["Company"%string]; column ["Date"%string]]
                                   [[PVstring "Acme"; PVstring "2023-06-01"]]))).
Proof.
  assert (H : CONVERTER (view [column ["Company"%string]; column ["Date"%string]]
                           [[PVstring "Acme"; PVstring "2023-06-01"]])
              = Ok [event "" None (Some (ValidDate 1685577600000))]) by reflexivity.
  split; [ exact H | ].
  exact (proj1 (CONVERTER_one_record_per_row _ _ H)).
Defined.

(** The date of the record converted from the sample row is well formed. *)
Lemma converted_date_is_well_formed :
  Date (event "" None (Some (ValidDate 1685577600000))) = None
  \/ Date (event "" None (Some (ValidDate 1685577600000))) = Some InvalidDate
  \/ is_valid_date (Date (event "" None (Some (ValidDate 1685577600000)))).
Proof.
  apply (CONVERTER_dates_well_formed
           (view [column ["Company"%string]; column ["Date"%string]]
              [[PVstring "Acme"; PVstring "2023-06-01"]])
           [event "" None (Some (ValidDate 1685577600000))]).
  - reflexivity.
  - left. reflexivity.
Defined.

(** Filtering the kept record of the 2020/2023 scenario again keeps it. *)
Lemma window_filter_twice_2023 :
  (window_filter (settings "" 2 1) june_2024
     [event "Commercial" None (Some (ValidDate 1577836800000));
      event "Regulatory" None (Some (ValidDate june_2023))]
   = Ok {| w_minDate := Some (window_start (settings "" 2 1) june_2024);
           w_maxDate := Some (window_end (settings "" 2 1) june_2024);
           timelineLocalData := [event "Regulatory" None (Some (ValidDate june_2023))] |}
   /\ [event "Regulatory" None (Some (ValidDate june_2023))] <> [])
  /\ window_filter (settings "" 2 1) june_2024
       [event "Regulatory" None (Some (ValidDate june_2023))]
     = Ok {| w_minDate := Some (window_start (settings "" 2 1) june_2024);
             w_maxDate := Some (window_end (settings "" 2 1) june_2024);
             timelineLocalData := [event "Regulatory" None (Some (ValidDate june_2023))] |}.
Proof.
  assert (H : window_filter (settings "" 2 1) june_2024
                [event "Commercial" None (Some (ValidDate 1577836800000));
                 event "Regulatory" None (Some (ValidDate june_2023))]
              = Ok {| w_minDate := Some (window_start (settings "" 2 1) june_2024);
                      w_maxDate := Some (window_end (settings "" 2 1) june_2024);
                      timelineLocalData :=
                        [event "Regulatory" None (Some (ValidDate june_2023))] |})
    by reflexivity.
  assert (Hne : [event "Regulatory" None (Some (ValidDate june_2023))] <> [])
    by discriminate.
  split; [ split; assumption | ].
  exact (window_filter_idempotent _ _ _ _ H Hne).
Defined.

(** The 2020/2023 scenario resolves to the 2023 record and the window. *)
Lemma update_window_2020_2023 :
  update_window (settings "" 2 1) june_2024
    [event "Commercial" None (Some (ValidDate 1577836800000));
     event "Regulatory" None (Some (ValidDate june_2023))]
  = Ok {| active := [event "Regulatory" None (Some (ValidDate june_2023))];
          minDate := Some (ValidDate 1640995200000);
          maxDate := Some (ValidDate 1735689600000) |}.
Proof.
  rewrite update_window_inside_window.
  - reflexivity.
  - repeat constructor; discriminate.
  - reflexivity.
Defined.

(** The render pass on the 2020/2023 scenario shows the 2023 record. *)
Lemma render_shows_2023 :
  exists out,
    render (settings "" 2 1) 800 600 june_2024
      [event "Commercial" None (Some (ValidDate 1577836800000));
       event "Regulatory" None (Some (ValidDate june_2023))] = Ok out
    /\ shown out = [event "Regulatory" None (Some (ValidDate june_2023))].
Proof.
  destruct (render_Ok_when (settings "" 2 1) 800 600 june_2024
              [event "Commercial" None (Some (ValidDate 1577836800000));
               event "Regulatory" None (Some (ValidDate june_2023))])
    as (out & H).
  - reflexivity.
  - left. unfold slice_0_100. cbn [firstn]. discriminate.
  - exists out. split; [ exact H | ].
    rewrite (proj1 (render_shows_window_or_all _ _ _ _ _ _ H)). reflexivity.
Defined.

(** The empty chart of the default layout. *)
Lemma render_empty_chart_default_layout :
  render (settings "" 2 1) 800 600 june_2024 [] =
  Ok {| svg_width := 800; svg_height := 600; headerFooter := NoImage;
        ticks := YearlyTicks; domain := (Some InvalidDate, Some InvalidDate);
        shown := []; lines := []; arrows := []; boxes := [] |}.
Proof.
  apply (render_empty_chart (settings "" 2 1) 800 600 june_2024). reflexivity.
Defined.


(** C2 as amended, on records dated 2020, 2023 and 2030 with two years
    back and one ahead and the clock in 2024: the window runs from 2022 to
    2025, both plain years, and only the 2023 record is kept, the 2020 one
    falling below the window and the 2030 one above it. *)
Lemma C2_window_2022_2025 :
  ([event "Commercial" None (Some (ValidDate 1577836800000));
    event "Regulatory" None (Some (ValidDate june_2023));
    event "Commercial" None (Some (ValidDate 1893456000000))] <> []
   /\ Forall (fun d => Date d <> None)
        [event "Commercial" None (Some (ValidDate 1577836800000));
         event "Regulatory" None (Some (ValidDate june_2023));
         event "Commercial" None (Some (ValidDate 1893456000000))])
  /\ (plain_year (year_of_time june_2024 - 2) /\ plain_year (year_of_time june_2024 + 1))
  /\ exists w,
       window_filter (settings "" 2 1) june_2024
         [event "Commercial" None (Some (ValidDate 1577836800000));
          event "Regulatory" None (Some (ValidDate june_2023));
          event "Commercial" None (Some (ValidDate 1893456000000))] = Ok w
       /\ timelineLocalData w = [event "Regulatory" None (Some (ValidDate june_2023))]
       /\ w_minDate w = Some (ValidDate 1640995200000)
       /\ w_maxDate w = Some (ValidDate 1735689600000).
Proof.
  assert (H1 : [event "Commercial" None (Some (ValidDate 1577836800000));
                event "Regulatory" None (Some (ValidDate june_2023));
                event "Commercial" None (Some (ValidDate 1893456000000))] <> [])
    by discriminate.
  assert (H2 : Forall (fun d => Date d <> None)
                 [event "Commercial" None (Some (ValidDate 1577836800000));
                  event "Regulatory" None (Some (ValidDate june_2023));
                  event "Commercial" None (Some (ValidDate 1893456000000))])
    by (repeat constructor; discriminate).
  assert (P1 : plain_year (year_of_time june_2024 - 2)).
  { split; [ right; vm_compute; reflexivity | vm_compute; discriminate ]. }
  assert (P2 : plain_year (year_of_time june_2024 + 1)).
  { split; [ right; vm_compute; reflexivity | vm_compute; discriminate ]. }
  split; [ split; assumption | ]. split; [ split; assumption | ].
  pose proof (C2_window_filter_keeps_years_in_window (settings "" 2 1) june_2024 _ H1 H2)
    as H.
  cbv zeta in H. destruct H as (w & Hw & Hlo & Hhi & _ & Hp & _).
  destruct (Hp P1 P2) as (Hf & _).
  exists w. split; [ exact Hw | ]. split; [ rewrite Hf; reflexivity | ].
  split; [ rewrite Hlo; reflexivity | rewrite Hhi; reflexivity ].
Defined.

(** C2, the claim as stated, fails when currentYear - PreviousYear falls
    in 0..99.  With the clock in 2024 and PreviousYear 1974 the lower bound
    is built from the year 50, and [new Date(50, 0, 1)] is 1 January 1950:
    a record dated 1 January 1900, whose year 1900 is at least 50 and at
    most 2025, is dropped. *)
Lemma C2_two_digit_lower_bound :
  year_of_time june_2024 - PreviousYear (displayYears (settings "" 1974 1)) = 50
  /\ year_of_time june_2024 + FutureYear (displayYears (settings "" 1974 1)) = 2025
  /\ record_year (event "Commercial" None (Some (ValidDate (-2208988800000)))) = Fin 1900
  /\ window_filter (settings "" 1974 1) june_2024
       [event "Commercial" None (Some (ValidDate (-2208988800000)))]
     = Ok {| w_minDate := Some (ValidDate (-631152000000));
             w_maxDate := Some (ValidDate 1735689600000);
             timelineLocalData := [] |}
  /\ getFullYear (ValidDate (-631152000000)) = Fin 1950.
Proof.
  repeat split; reflexivity.
Qed.




